(** * build.py: the build-and-package script of sasa

    The script runs the PowerShell build driver, stops with exit status 1
    when the driver fails, and otherwise writes five prebuilt libraries
    into [build.zip].  This file embeds the script as a program in a small
    state-and-exception monad over a model of the file system and of the
    host the script runs on, and states the behaviour the design document
    expects of it. *)

From Stdlib Require Import ZArith Ascii.
From stdpp Require Import base strings list gmap.

Local Open Scope Z_scope.
Local Open Scope string_scope.

(** ** File system *)

(** What a regular file holds.  An archive written by [zipfile] is kept as
    its sequence of members (entry name, member data) in the order in which
    they were written; any other file is its bytes. *)
#[local] Unset Elimination Schemes.
Inductive content :=
| Raw (data : list Byte.byte)
| Zip (members : list (string * content)).
#[local] Set Elimination Schemes.

(** Paths are the strings the script passes to the library, all relative to
    the working directory.  A path that is not in the map does not exist;
    a path in the map is a regular file. *)
Abbreviation FS := (gmap string content).

Definition zero_length (c : content) : bool :=
  match c with
  | Raw [] => true
  | _ => false
  end.

(** ** Exceptions *)

Inductive exn :=
| SystemExit (code : Z)
| FileNotFoundError (filename : string)
| ValueError (msg : string)
| StructError                           (* struct.error *)
| UnicodeEncodeError (text : string)
| OSError (errno : Z) (filename : string).
    (* an OSError other than FileNotFoundError: PermissionError, ENOSPC, EIO, ... *)

(** ** The host *)

(** What can go wrong, for reasons outside the script, when one existing
    file is put into the archive. *)
Inductive fault :=
| Sound                                   (* nothing *)
| StatFails (errno : Z)                   (* os.stat raises *)
| OpenFails (errno : Z)                   (* open(filename, "rb") raises *)
| CopyFails (kept : content) (errno : Z)  (* reading raises after [kept] was copied *)
| StoreFails (remains : content) (errno : Z).
    (* writing into the archive raises; the archive file is left as [remains] *)

(** The attributes of a file that [zip.write] depends on besides its
    contents: the year of its modification time (local time) and what the
    host lets happen to it. *)
Record attrs := mkAttrs {
  mtime_year : Z;
  fault_of : fault
}.

(** Why [print] can fail. *)
Inductive console_fault :=
| CannotEncode              (* the encoding of stdout has no code for the text *)
| CannotWrite (errno : Z).  (* the write to stdout fails *)

(** The conditions a run meets on its machine, apart from what the build
    driver does.  Each field says how a step outside the script's control
    turns out, so that a host can be found for every way the library calls
    of the script can end; nothing is assumed about when the failures
    occur. *)
Record Host := mkHost {
  console : string -> option console_fault;
    (* what [print] of a line runs into; None when the line is written *)
  flush_fails : bool;
    (* the interpreter cannot flush stdout or stderr when it exits *)
  create_fault : string -> option Z;
    (* errno of open(path, "w+b") when the file cannot be created *)
  attrs_of : string -> attrs;
    (* the attributes of the files once the driver has returned *)
  end_record_fault : option (content * Z)
    (* writing the central directory fails with the errno, leaving the
       archive file as the content *)
}.

(** ** Observable actions *)

Inductive event :=
| EvSystem (cmd : string)                    (* os.system(cmd) *)
| EvPrint (line : string)                    (* print(line), written *)
| EvCreate (path : string)                   (* open(path, "w+b"), succeeded *)
| EvCreateFailed (path : string)             (* open(path, "w+b"), failed *)
| EvStat (path : string)                     (* os.stat(path) *)
| EvRead (path : string)                     (* open(path, "rb"), succeeded *)
| EvMember (path : string) (arcname : string)  (* member recorded in path *)
| EvWriteFailed (path : string)              (* a write into path failed *)
| EvEndRecord (path : string)                (* central directory written *)
| EvRename (src dst : string).               (* os.rename / os.replace *)

(** ** Interpreter state *)

(** A [zipfile.ZipFile] object opened for writing: the file it writes to and
    the members recorded so far ([self.filelist]). *)
Record ZipFile := mkZipFile {
  zf_filename : string;
  zf_filelist : list (string * content)
}.

Record World := mkWorld {
  fs : FS;                  (* the file system *)
  stdout : list string;     (* lines written to stdout so far *)
  trace : list event;       (* actions so far, oldest first *)
  history : list FS;        (* the file system after each action of [trace] *)
  zip_var : option ZipFile  (* the variable [zip]; None when no archive is open *)
}.

(** Log actions that leave the file system as it is. *)
Definition emit (es : list event) (w : World) : World :=
  mkWorld (fs w) (stdout w) (trace w ++ es)
          (history w ++ map (fun _ => fs w) es) (zip_var w).

(** Replace one file and the variable [zip]. *)
Definition store (path : string) (c : content) (z : option ZipFile) (w : World) : World :=
  mkWorld (<[path := c]> (fs w)) (stdout w) (trace w) (history w) z.

(** ** The monad of script fragments *)

Definition M (A : Type) : Type := World -> (A + exn) * World.

Definition ret {A} (a : A) : M A := fun w => (inl a, w).

Definition raise {A} (e : exn) : M A := fun w => (inr e, w).

Definition bind {A B} (m : M A) (k : A -> M B) : M B :=
  fun w =>
    match m w with
    | (inl a, w') => k a w'
    | (inr e, w') => (inr e, w')
    end.

(** [try: body finally: cleanup]: the cleanup runs on both exits; the
    body's result (or exception) is kept unless the cleanup raises. *)
Definition finally {A} (body : M A) (cleanup : M unit) : M A :=
  fun w =>
    match body w with
    | (r, w') =>
        match cleanup w' with
        | (inl _, w'') => (r, w'')
        | (inr e, w'') => (inr e, w'')
        end
    end.

Declare Scope py_scope.
Delimit Scope py_scope with py.
Notation "x <~ m ;; k" := (bind m (fun x => k))
  (at level 100, m at next level, right associativity) : py_scope.
Notation "m ;; k" := (bind m (fun _ => k))
  (at level 100, right associativity) : py_scope.
Local Open Scope py_scope.

(** ** Library calls used by the script *)

(** The exception a failing [print] raises. *)
Definition console_exn (line : string) (f : console_fault) : exn :=
  match f with
  | CannotEncode => UnicodeEncodeError line
  | CannotWrite errno => OSError errno "<stdout>"
  end.

(** [print(line)] *)
Definition print (host : Host) (line : string) : M unit :=
  fun w =>
    match console host line with
    | Some f => (inr (console_exn line f), w)
    | None =>
        (inl tt,
         mkWorld (fs w) (stdout w ++ [line]) (trace w ++ [EvPrint line])
                 (history w ++ [fs w]) (zip_var w))
    end.

(** [exit(code)] raises [SystemExit]. *)
Definition exit (code : Z) : M unit := raise (SystemExit code).

(** [zipfile.ZipFile(file, "w")]: the file is opened with mode "w+b", which
    creates it or truncates it to zero length, and the object starts with an
    empty member list.  When the file cannot be opened the constructor
    raises and nothing is changed. *)
Definition zipfile_ZipFile (host : Host) (file : string) : M unit :=
  fun w =>
    match create_fault host file with
    | Some errno => (inr (OSError errno file), emit [EvCreateFailed file] w)
    | None =>
        (inl tt,
         emit [EvCreate file] (store file (Raw []) (Some (mkZipFile file [])) w))
    end.

(** How [zip.write(filename, ...)] ends for one source, given the file
    system and the host. *)
Inductive attempt :=
| Stored (c : content)                (* the whole file became a member *)
| Rejected (e : exn) (opened : bool)  (* raised before anything was written;
                                         [opened]: the source had been opened *)
| Truncated (kept : content) (e : exn)  (* raised while copying; the
                                           unfinished member is recorded *)
| Wrecked (remains : content) (e : exn).   (* raised while writing *)

(** The steps of [ZipFile.write] in the order of zipfile.py:
    [ZipInfo.from_file] stats the source and refuses a year before 1980;
    then the source is opened; then [_open_to_write] packs the header,
    which fails for a year after 2107; then the data are copied. *)
Definition attempt_of (host : Host) (zipname : string) (files : FS)
    (filename : string) : attempt :=
  match files !! filename with
  | None => Rejected (FileNotFoundError filename) false
  | Some c =>
      let a := attrs_of host filename in
      match fault_of a with
      | StatFails errno => Rejected (OSError errno filename) false
      | f =>
          if (mtime_year a <? 1980)%Z then
            Rejected (ValueError "ZIP does not support timestamps before 1980") false
          else
            match f with
            | OpenFails errno => Rejected (OSError errno filename) false
            | _ =>
                if (2107 <? mtime_year a)%Z then
                  Rejected StructError true
                else
                  match f with
                  | CopyFails kept errno => Truncated kept (OSError errno filename)
                  | StoreFails remains errno => Wrecked remains (OSError errno zipname)
                  | _ => Stored c
                  end
            end
      end
  end.

(** Record a member in the open archive. *)
Definition record_member (zf : ZipFile) (m : string * content) (w : World) : World :=
  mkWorld (fs w) (stdout w) (trace w) (history w)
          (Some (mkZipFile (zf_filename zf) (zf_filelist zf ++ [m]))).

(** [zip.write(filename, arcname=arcname)].  The entry names the script
    passes are already in the normal form [from_file] computes.  When the
    copy fails, [_ZipWriteFile.close] still records the member with what was
    copied.  When a write into the archive fails, the archive file is left
    in the state the host determines and the object is of no further use. *)
Definition zip_write (host : Host) (filename arcname : string) : M unit :=
  fun w =>
    match zip_var w with
    | None =>
        (inr (ValueError "Attempt to write to ZIP archive that was already closed"), w)
    | Some zf =>
        match attempt_of host (zf_filename zf) (fs w) filename with
        | Rejected e opened =>
            (inr e,
             emit (EvStat filename :: if opened then [EvRead filename] else []) w)
        | Stored c =>
            (inl tt,
             emit [EvStat filename; EvRead filename; EvMember (zf_filename zf) arcname]
                  (record_member zf (arcname, c) w))
        | Truncated kept e =>
            (inr e,
             emit [EvStat filename; EvRead filename; EvMember (zf_filename zf) arcname]
                  (record_member zf (arcname, kept) w))
        | Wrecked remains e =>
            (inr e,
             emit [EvWriteFailed (zf_filename zf)]
                  (store (zf_filename zf) remains None
                         (emit [EvStat filename; EvRead filename] w)))
        end
    end.

(** [zip.close()], called by [ZipFile.__exit__]: the central directory of
    the members recorded so far is appended, which completes the archive. *)
Definition zip_close (host : Host) : M unit :=
  fun w =>
    match zip_var w with
    | None => (inl tt, w)
    | Some zf =>
        match end_record_fault host with
        | Some (remains, errno) =>
            (inr (OSError errno (zf_filename zf)),
             emit [EvWriteFailed (zf_filename zf)]
                  (store (zf_filename zf) remains None w))
        | None =>
            (inl tt,
             emit [EvEndRecord (zf_filename zf)]
                  (store (zf_filename zf) (Zip (zf_filelist zf)) None w))
        end
    end.

(** [with zipfile.ZipFile(file, "w") as zip: body] *)
Definition with_ZipFile (host : Host) (file : string) (body : M unit) : M unit :=
  zipfile_ZipFile host file ;; finally body (zip_close host).

(** ** The script *)

(** The message of line 5. *)
Definition build_failed_message : string := "编译失败".

Definition build_command : string := "powershell ./build.ps1".

(** Exit status of the interpreter for the way the script ended: 0 at the
    end of the script, the code of an uncaught [SystemExit], and 1 for any
    other uncaught exception. *)
Definition exit_status (r : unit + exn) : Z :=
  match r with
  | inl _ => 0
  | inr (SystemExit code) => code
  | inr _ => 1
  end.

(** What is left of a finished process: how the script ended, the state
    it left behind and the exit status of the process. *)
Record Run := mkRun {
  outcome : unit + exn;
  final : World;
  exit_code : Z
}.

Definition initial (fs0 : FS) : World := mkWorld fs0 [] [] [] None.

Section Script.

Variable host : Host.

(** Lines 9 to 13 of build.py: the body of the [with] block. *)
Definition package_body : M unit :=
  zip_write host "./target/x86_64-pc-windows-gnu/release/sasa.dll" "x86_64-pc-windows-gnu/sasa.dll" ;;
  zip_write host "./target/i686-pc-windows-gnu/release/sasa.dll" "i686-pc-windows-gnu/sasa.dll" ;;
  zip_write host "./target/aarch64-linux-android/release/libsasa.so" "aarch64-linux-android/libsasa.so" ;;
  zip_write host "./target/armv7-linux-androideabi/release/libsasa.so" "armv7-linux-androideabi/libsasa.so" ;;
  zip_write host "./target/aarch64-apple-ios/release/libsasa.a" "aarch64-apple-ios/libsasa.a".

(** Lines 8 to 13 of build.py. *)
Definition package : M unit :=
  with_ZipFile host "build.zip" package_body.

(** The shell of the host: what running a command line does to the file
    system, and the status that [os.system] returns for it. *)
Variable shell : string -> FS -> Z * FS.

(** [os.system(cmd)] *)
Definition os_system (cmd : string) : M Z :=
  fun w =>
    let '(status, fs') := shell cmd (fs w) in
    (inl status,
     mkWorld fs' (stdout w) (trace w ++ [EvSystem cmd]) (history w ++ [fs'])
             (zip_var w)).

(** What the build driver returns and the file system it leaves. *)
Definition build_status (fs0 : FS) : Z := fst (shell build_command fs0).
Definition built_fs (fs0 : FS) : FS := snd (shell build_command fs0).

(** build.py, top to bottom. *)
Definition build_py : M unit :=
  status <~ os_system build_command ;;
  (if negb (status =? 0)%Z then
     print host build_failed_message ;; exit 1
   else ret tt) ;;
  package.

(** One execution of the script in a working directory that holds [fs0].
    When the interpreter cannot flush its standard streams at exit, the
    process ends with status 120 whatever the script did. *)
Definition run (fs0 : FS) : Run :=
  let '(r, w) := build_py (initial fs0) in
  mkRun r w (if flush_fails host then 120 else exit_status r).

End Script.

(** ** The manifest the script hard-codes *)

(** One packaged target, as the design document names its parts. *)
Record TargetSpec := mkTarget {
  triple : string;
  artifact_path : string;
  archive_name : string
}.

Definition entry_path (t : TargetSpec) : string :=
  triple t ++ "/" ++ archive_name t.

(** The arguments of the five [zip.write] calls, in program order. *)
Definition manifest : list TargetSpec :=
  [ mkTarget "x86_64-pc-windows-gnu" "./target/x86_64-pc-windows-gnu/release/sasa.dll" "sasa.dll";
    mkTarget "i686-pc-windows-gnu" "./target/i686-pc-windows-gnu/release/sasa.dll" "sasa.dll";
    mkTarget "aarch64-linux-android" "./target/aarch64-linux-android/release/libsasa.so" "libsasa.so";
    mkTarget "armv7-linux-androideabi" "./target/armv7-linux-androideabi/release/libsasa.so" "libsasa.so";
    mkTarget "aarch64-apple-ios" "./target/aarch64-apple-ios/release/libsasa.a" "libsasa.a" ].

(** The file name line 8 passes to [zipfile.ZipFile]. *)
Definition output_path : string := "build.zip".

(** A sequence of [zip.write] calls, one per target. *)
Fixpoint write_all (host : Host) (l : list TargetSpec) : M unit :=
  match l with
  | [] => ret tt
  | t :: l' => zip_write host (artifact_path t) (entry_path t) ;; write_all host l'
  end.

Section Tally.

(** What such a sequence does to the archive [zipname] when it starts on
    the file system [files]. *)
Variables (host : Host) (zipname : string) (files : FS).

(** The members it records: one per target up to the first one whose
    [zip.write] raises, and the unfinished member if that was a failed
    copy. *)
Fixpoint packed (l : list TargetSpec) : list (string * content) :=
  match l with
  | [] => []
  | t :: l' =>
      match attempt_of host zipname files (artifact_path t) with
      | Stored c => (entry_path t, c) :: packed l'
      | Truncated kept _ => [(entry_path t, kept)]
      | Rejected _ _ | Wrecked _ _ => []
      end
  end.

(** How it ends: normally, or in the first exception raised. *)
Fixpoint body_result (l : list TargetSpec) : unit + exn :=
  match l with
  | [] => inl tt
  | t :: l' =>
      match attempt_of host zipname files (artifact_path t) with
      | Stored _ => body_result l'
      | Rejected e _ | Truncated _ e | Wrecked _ e => inr e
      end
  end.

(** Its actions. *)
Fixpoint write_events (l : list TargetSpec) : list event :=
  match l with
  | [] => []
  | t :: l' =>
      match attempt_of host zipname files (artifact_path t) with
      | Stored _ =>
          [EvStat (artifact_path t); EvRead (artifact_path t);
           EvMember zipname (entry_path t)] ++ write_events l'
      | Rejected _ opened =>
          EvStat (artifact_path t) :: if opened then [EvRead (artifact_path t)] else []
      | Truncated _ _ =>
          [EvStat (artifact_path t); EvRead (artifact_path t);
           EvMember zipname (entry_path t)]
      | Wrecked _ _ =>
          [EvStat (artifact_path t); EvRead (artifact_path t); EvWriteFailed zipname]
      end
  end.

(** The file system after each of these actions. *)
Fixpoint write_snaps (l : list TargetSpec) : list FS :=
  match l with
  | [] => []
  | t :: l' =>
      match attempt_of host zipname files (artifact_path t) with
      | Stored _ => [files; files; files] ++ write_snaps l'
      | Rejected _ opened => files :: if opened then [files] else []
      | Truncated _ _ => [files; files; files]
      | Wrecked remains _ => [files; files; <[zipname := remains]> files]
      end
  end.

(** What a failed write into the archive left of it, if one happened. *)
Fixpoint wreck (l : list TargetSpec) : option content :=
  match l with
  | [] => None
  | t :: l' =>
      match attempt_of host zipname files (artifact_path t) with
      | Stored _ => wreck l'
      | Wrecked remains _ => Some remains
      | Rejected _ _ | Truncated _ _ => None
      end
  end.

(** The whole [with] block over these calls, entered with the archive
    open and empty: how it ends, *)
Definition with_result (l : list TargetSpec) : unit + exn :=
  match wreck l, end_record_fault host with
  | None, Some (_, errno) => inr (OSError errno zipname)
  | _, _ => body_result l
  end.

(** what it leaves in the archive file, *)
Definition left_behind (l : list TargetSpec) : content :=
  match wreck l, end_record_fault host with
  | Some remains, _ => remains
  | None, Some (remains, _) => remains
  | None, None => Zip (packed l)
  end.

(** and what [ZipFile.__exit__] does at its end. *)
Definition close_events (l : list TargetSpec) : list event :=
  match wreck l, end_record_fault host with
  | Some _, _ => []
  | None, Some _ => [EvWriteFailed zipname]
  | None, None => [EvEndRecord zipname]
  end.

Definition close_snaps (l : list TargetSpec) : list FS :=
  match wreck l with
  | Some _ => []
  | None => [<[zipname := left_behind l]> files]
  end.

End Tally.

(** ** Observations on a finished run *)

(** Member [m] of an archive is the packaged form of target [t]: it sits at
    [<triple>/<archive_name>] and holds what the artifact file holds. *)
Definition member_of (files : FS) (t : TargetSpec) (m : string * content) : Prop :=
  m.1 = entry_path t ∧ files !! artifact_path t = Some m.2.

(** The artifact of target [t] exists. *)
Definition present (files : FS) (t : TargetSpec) : Prop :=
  is_Some (files !! artifact_path t).

Definition all_present (files : FS) : Prop := Forall (present files) manifest.

(** The artifact of target [t] goes into the archive [zipname] whole. *)
Definition stored (host : Host) (zipname : string) (files : FS) (t : TargetSpec) : Prop :=
  exists c, attempt_of host zipname files (artifact_path t) = Stored c.

(** [ZipFile.read(name)] on a finished archive: the data of the member
    called [name]; of two members with one name the later one is found. *)
Fixpoint extract (members : list (string * content)) (name : string) : option content :=
  match members with
  | [] => None
  | (n, c) :: rest =>
      match extract rest name with
      | Some c' => Some c'
      | None => if decide (n = name) then Some c else None
      end
  end.

(** An action of the script on the file system (the driver's own file
    accesses happen inside [os.system] and are not actions of the script). *)
Definition file_access (e : event) : bool :=
  match e with
  | EvSystem _ | EvPrint _ => false
  | _ => true
  end.

(** The paths the script creates or truncates. *)
Definition created (e : event) : option string :=
  match e with
  | EvCreate p => Some p
  | _ => None
  end.

(** Moving a file into place; no call of the script does this. *)
Definition is_rename (e : event) : bool :=
  match e with
  | EvRename _ _ => true
  | _ => false
  end.

(** What the script is allowed to touch if it reads nothing but the
    declared artifacts and writes nothing but the archive, in place. *)
Definition script_access (e : event) : Prop :=
  match e with
  | EvSystem _ | EvPrint _ => True
  | EvStat p | EvRead p => p ∈ map artifact_path manifest
  | EvCreate p | EvCreateFailed p | EvMember p _ | EvWriteFailed p
  | EvEndRecord p => p = output_path
  | EvRename _ _ => False
  end.

(** Forward slash and backslash (character 92). *)
Definition is_separator (a : ascii) : bool :=
  bool_decide (a = "/"%char) || bool_decide (a = ascii_of_nat 92).

Fixpoint no_separator (s : string) : bool :=
  match s with
  | EmptyString => true
  | String a rest => negb (is_separator a) && no_separator rest
  end.

(** ** Projections of the trace *)

(** The command lines handed to [os.system]. *)
Definition system_command (e : event) : option string :=
  match e with
  | EvSystem cmd => Some cmd
  | _ => None
  end.

(** The paths [ZipInfo.from_file] stats. *)
Definition stat_path (e : event) : option string :=
  match e with
  | EvStat p => Some p
  | _ => None
  end.

(** The paths [zip.write] opens for reading. *)
Definition read_path (e : event) : option string :=
  match e with
  | EvRead p => Some p
  | _ => None
  end.

(** The names of the members recorded. *)
Definition member_name (e : event) : option string :=
  match e with
  | EvMember _ arcname => Some arcname
  | _ => None
  end.

(** ** Stages *)

(** The states of the pipeline in the design document. *)
Inductive stage :=
| START | BUILDING | BUILD_FAILED
| VALIDATING | VALIDATION_FAILED
| PACKAGING | PACKAGE_FAILED | DONE.

#[global] Instance stage_eq_dec : EqDecision stage.
Proof. solve_decision. Defined.

(** The failure state of the stage a run is in. *)
Definition failure_of (s : stage) : stage :=
  match s with
  | START | BUILDING | BUILD_FAILED => BUILD_FAILED
  | VALIDATING | VALIDATION_FAILED => VALIDATION_FAILED
  | PACKAGING | PACKAGE_FAILED | DONE => PACKAGE_FAILED
  end.

(** The stage an action puts the run in, given the stage it was in.
    Running the driver is building.  Anything done to an output file is
    packaging.  Looking at a source or opening it is packaging once
    packaging has begun, and validating before that.  A message reports the
    failure of the stage the run is in. *)
Definition next_stage (cur : stage) (e : event) : stage :=
  match e with
  | EvSystem _ => BUILDING
  | EvPrint _ => failure_of cur
  | EvStat _ | EvRead _ =>
      match cur with
      | PACKAGING => PACKAGING
      | _ => VALIDATING
      end
  | EvCreate _ | EvCreateFailed _ | EvMember _ _ | EvWriteFailed _
  | EvEndRecord _ | EvRename _ _ => PACKAGING
  end.

Fixpoint walk (cur : stage) (tr : list event) : list stage :=
  match tr with
  | [] => []
  | e :: rest => next_stage cur e :: walk (next_stage cur e) rest
  end.

(** The state a finished process is in: DONE at the end of the script, and
    after an exception the failure state of the last stage. *)
Definition end_stage (visited : list stage) (r : unit + exn) : stage :=
  match r with
  | inl _ => DONE
  | inr _ => failure_of (default START (last visited))
  end.

(** Consecutive repetitions of a stage are one visit. *)
Fixpoint squash (l : list stage) : list stage :=
  match l with
  | [] => []
  | a :: rest =>
      match rest with
      | [] => [a]
      | b :: _ => if decide (a = b) then squash rest else a :: squash rest
      end
  end.

(** The stages of a process with the given actions and end. *)
Definition stages_of (tr : list event) (r : unit + exn) : list stage :=
  squash ((START :: walk START tr) ++ [end_stage (START :: walk START tr) r]).

(** The stages a run went through, in order. *)
Definition stages (r : Run) : list stage :=
  stages_of (trace (final r)) (outcome r).

(** The pipeline as the design document draws it, for comparison. *)
Definition design_step (a b : stage) : bool :=
  match a, b with
  | START, BUILDING
  | BUILDING, BUILD_FAILED | BUILDING, VALIDATING
  | VALIDATING, VALIDATION_FAILED | VALIDATING, PACKAGING
  | PACKAGING, PACKAGE_FAILED | PACKAGING, DONE => true
  | _, _ => false
  end.

Fixpoint design_path (l : list stage) : bool :=
  match l with
  | a :: rest =>
      match rest with
      | [] => true
      | b :: _ => design_step a b && design_path rest
      end
  | [] => true
  end.

Definition design_run (l : list stage) : bool :=
  match l with
  | START :: _ => design_path l
  | _ => false
  end.

(** ** Sample hosts and working directories *)

(** A host on which nothing goes wrong: every file is dated 2024. *)
Definition plain_host : Host :=
  mkHost (fun _ => None) false (fun _ => None) (fun _ => mkAttrs 2024 Sound) None.

(** The same host, but the 64-bit Android library carries a modification
    time of 1979. *)
Definition host_stale_mtime : Host :=
  mkHost (fun _ => None) false (fun _ => None)
         (fun p => if decide (p = "./target/aarch64-linux-android/release/libsasa.so")
                   then mkAttrs 1979 Sound else mkAttrs 2024 Sound)
         None.


(** A host whose console cannot encode the message of line 5. *)
Definition host_ascii_console : Host :=
  mkHost (fun _ => Some CannotEncode) false (fun _ => None)
         (fun _ => mkAttrs 2024 Sound) None.

(** A driver that fails without touching anything. *)
Definition driver_fails : string -> FS -> Z * FS := fun _ files => (1, files).

(** A driver that reports success without touching anything. *)
Definition driver_idle : string -> FS -> Z * FS := fun _ files => (0, files).

Definition dll64 : content := Raw [Byte.x4d; Byte.x5a; Byte.x40].
Definition dll32 : content := Raw [Byte.x4d; Byte.x5a; Byte.x20].
Definition so64 : content := Raw [Byte.x7f; Byte.x45; Byte.x4c; Byte.x46; Byte.x02].
Definition so32 : content := Raw [Byte.x7f; Byte.x45; Byte.x4c; Byte.x46; Byte.x01].
Definition lib_a : content := Raw [Byte.x21; Byte.x3c; Byte.x61; Byte.x72].

(** The archive of an earlier release. *)
Definition old_release : content := Zip [("x86_64-pc-windows-gnu/sasa.dll", Raw [Byte.x00])].

(** All five artifacts. *)
Definition fs_complete : FS :=
  {[ "./target/x86_64-pc-windows-gnu/release/sasa.dll" := dll64;
     "./target/i686-pc-windows-gnu/release/sasa.dll" := dll32;
     "./target/aarch64-linux-android/release/libsasa.so" := so64;
     "./target/armv7-linux-androideabi/release/libsasa.so" := so32;
     "./target/aarch64-apple-ios/release/libsasa.a" := lib_a ]}.

(** A driver that builds all five artifacts. *)
Definition driver_builds : string -> FS -> Z * FS :=
  fun _ files => (0, fs_complete ∪ files).

(** The two Windows libraries only, next to an earlier release. *)
Definition fs_windows_only : FS :=
  {[ "./target/x86_64-pc-windows-gnu/release/sasa.dll" := dll64;
     "./target/i686-pc-windows-gnu/release/sasa.dll" := dll32;
     "build.zip" := old_release ]}.

(** Everything but the iOS library. *)
Definition fs_no_ios : FS :=
  delete "./target/aarch64-apple-ios/release/libsasa.a" fs_complete.

(** Everything but the 64-bit Android library. *)
Definition fs_no_android64 : FS :=
  delete "./target/aarch64-linux-android/release/libsasa.so" fs_complete.

(** All five artifacts, the 32-bit Android one of length zero. *)
Definition fs_empty_so : FS :=
  <["./target/armv7-linux-androideabi/release/libsasa.so" := Raw []]> fs_complete.


(** A source tree with a README and nothing built yet. *)
Definition fs_sources : FS := {[ "README.md" := Raw [Byte.x23] ]}.

(** The actions of a script that would look at every artifact before it
    opens the archive. *)
Definition validating_trace : list event :=
  [ EvSystem "powershell ./build.ps1";
    EvStat "./target/x86_64-pc-windows-gnu/release/sasa.dll";
    EvStat "./target/i686-pc-windows-gnu/release/sasa.dll";
    EvStat "./target/aarch64-linux-android/release/libsasa.so";
    EvStat "./target/armv7-linux-androideabi/release/libsasa.so";
    EvStat "./target/aarch64-apple-ios/release/libsasa.a";
    EvCreate "build.zip";
    EvStat "./target/x86_64-pc-windows-gnu/release/sasa.dll";
    EvRead "./target/x86_64-pc-windows-gnu/release/sasa.dll";
    EvMember "build.zip" "x86_64-pc-windows-gnu/sasa.dll";
    EvEndRecord "build.zip" ].

(** Case analysis on the way a [zip.write] ended. *)
Ltac attempt_cases H :=
  unfold attempt_of in H;
  repeat match type of H with
         | context [match ?x with _ => _ end] => destruct x eqn:?
         end;
  try discriminate H.

(** * Lemmas *)

(** ** The script and the manifest agree *)

Lemma package_body_manifest (host : Host) (w : World) :
  package_body host w = write_all host manifest w.
Proof.
  unfold package_body, manifest, write_all, entry_path; simpl.
  unfold bind.
  repeat (destruct (zip_write _ _ _ _) as [[[]|?] ?]; try reflexivity).
Qed.

Lemma write_all_run (host : Host) (l : list TargetSpec) (w : World) (zf : ZipFile) :
  zip_var w = Some zf ->
  write_all host l w =
    (body_result host (zf_filename zf) (fs w) l,
     match wreck host (zf_filename zf) (fs w) l with
     | None =>
         mkWorld (fs w) (stdout w)
                 (trace w ++ write_events host (zf_filename zf) (fs w) l)
                 (history w ++ write_snaps host (zf_filename zf) (fs w) l)
                 (Some (mkZipFile (zf_filename zf)
                          (zf_filelist zf ++ packed host (zf_filename zf) (fs w) l)))
     | Some remains =>
         mkWorld (<[zf_filename zf := remains]> (fs w)) (stdout w)
                 (trace w ++ write_events host (zf_filename zf) (fs w) l)
                 (history w ++ write_snaps host (zf_filename zf) (fs w) l)
                 None
     end).
Proof.
  revert w zf. induction l as [|t l IH]; intros w zf Hz.
  - simpl. unfold ret. rewrite !app_nil_r.
    destruct w as [f o tr h z]; simpl in *. subst z. destruct zf; reflexivity.
  - simpl. unfold bind, zip_write at 1. rewrite Hz.
    destruct (attempt_of host (zf_filename zf) (fs w) (artifact_path t))
      as [c|e opened|kept e|remains e].
    + erewrite IH by reflexivity. cbn [fs stdout trace history zip_var emit
        record_member zf_filename zf_filelist map].
      destruct (wreck host (zf_filename zf) (fs w) l);
        rewrite <- !app_assoc; reflexivity.
    + unfold emit. destruct opened; simpl; rewrite app_nil_r, Hz;
        destruct zf; reflexivity.
    + unfold emit, record_member. simpl. reflexivity.
    + unfold emit, store. simpl. rewrite <- !app_assoc. reflexivity.
Qed.

(** ** The archive is not one of its own sources *)

Lemma manifest_not_output :
  Forall (fun t => artifact_path t ≠ output_path) manifest.
Proof. repeat constructor; discriminate. Qed.

Section Frame.

Variables (host : Host) (zipname : string).
Variables (z : string) (c : content) (files : FS).

Lemma attempt_of_insert (p : string) :
  p ≠ z ->
  attempt_of host zipname (<[z := c]> files) p = attempt_of host zipname files p.
Proof. intros Hp. unfold attempt_of. rewrite lookup_insert_ne by congruence. reflexivity. Qed.

Lemma packed_insert (l : list TargetSpec) :
  Forall (fun t => artifact_path t ≠ z) l ->
  packed host zipname (<[z := c]> files) l = packed host zipname files l.
Proof.
  induction 1 as [|t l Ht _ IH]; simpl; [reflexivity|].
  rewrite attempt_of_insert by exact Ht. rewrite IH. reflexivity.
Qed.

Lemma body_result_insert (l : list TargetSpec) :
  Forall (fun t => artifact_path t ≠ z) l ->
  body_result host zipname (<[z := c]> files) l = body_result host zipname files l.
Proof.
  induction 1 as [|t l Ht _ IH]; simpl; [reflexivity|].
  rewrite attempt_of_insert by exact Ht. rewrite IH. reflexivity.
Qed.

Lemma write_events_insert (l : list TargetSpec) :
  Forall (fun t => artifact_path t ≠ z) l ->
  write_events host zipname (<[z := c]> files) l = write_events host zipname files l.
Proof.
  induction 1 as [|t l Ht _ IH]; simpl; [reflexivity|].
  rewrite attempt_of_insert by exact Ht. rewrite IH. reflexivity.
Qed.

Lemma wreck_insert (l : list TargetSpec) :
  Forall (fun t => artifact_path t ≠ z) l ->
  wreck host zipname (<[z := c]> files) l = wreck host zipname files l.
Proof.
  induction 1 as [|t l Ht _ IH]; simpl; [reflexivity|].
  rewrite attempt_of_insert by exact Ht. rewrite IH. reflexivity.
Qed.

Lemma with_result_insert (l : list TargetSpec) :
  Forall (fun t => artifact_path t ≠ z) l ->
  with_result host zipname (<[z := c]> files) l = with_result host zipname files l.
Proof.
  intros Hl. unfold with_result. rewrite wreck_insert, body_result_insert by exact Hl.
  reflexivity.
Qed.

Lemma left_behind_insert (l : list TargetSpec) :
  Forall (fun t => artifact_path t ≠ z) l ->
  left_behind host zipname (<[z := c]> files) l = left_behind host zipname files l.
Proof.
  intros Hl. unfold left_behind. rewrite wreck_insert, packed_insert by exact Hl.
  reflexivity.
Qed.

Lemma close_events_insert (l : list TargetSpec) :
  Forall (fun t => artifact_path t ≠ z) l ->
  close_events host zipname (<[z := c]> files) l = close_events host zipname files l.
Proof.
  intros Hl. unfold close_events. rewrite wreck_insert by exact Hl. reflexivity.
Qed.

End Frame.

(** ** The packaging stage as a whole *)

Lemma package_created (host : Host) (w : World) :
  create_fault host output_path = None ->
  package host w =
    (with_result host output_path (fs w) manifest,
     mkWorld (<[output_path := left_behind host output_path (fs w) manifest]> (fs w))
             (stdout w)
             (trace w ++ [EvCreate output_path]
                ++ write_events host output_path (fs w) manifest
                ++ close_events host output_path (fs w) manifest)
             (history w ++ [<[output_path := Raw []]> (fs w)]
                ++ write_snaps host output_path (<[output_path := Raw []]> (fs w)) manifest
                ++ close_snaps host output_path (<[output_path := Raw []]> (fs w)) manifest)
             None).
Proof.
  intros Hc.
  unfold package, with_ZipFile, bind at 1, zipfile_ZipFile, finally.
  fold output_path. rewrite Hc.
  rewrite package_body_manifest.
  erewrite write_all_run by reflexivity.
  pose proof manifest_not_output as Hl. revert Hl.
  generalize manifest as l. intros l Hl.
  unfold with_result, left_behind, close_events, close_snaps, left_behind.
  cbn [fs stdout trace history zip_var zf_filename zf_filelist emit store map app].
  rewrite <- (wreck_insert host output_path output_path (Raw []) (fs w) l Hl).
  rewrite <- (body_result_insert host output_path output_path (Raw []) (fs w) l Hl).
  rewrite <- (write_events_insert host output_path output_path (Raw []) (fs w) l Hl).
  rewrite <- (packed_insert host output_path output_path (Raw []) (fs w) l Hl).
  destruct (wreck host output_path (<[output_path:=Raw []]> (fs w)) l) as [remains|].
  - unfold zip_close. cbn [zip_var].
    rewrite insert_insert_eq, !app_nil_r, <- !app_assoc. reflexivity.
  - unfold zip_close. cbn [zip_var].
    destruct (end_record_fault host) as [[remains errno]|];
      unfold emit, store; simpl;
      rewrite !insert_insert_eq, <- !app_assoc; reflexivity.
Qed.

Lemma package_refused (host : Host) (w : World) (errno : Z) :
  create_fault host output_path = Some errno ->
  package host w =
    (inr (OSError errno output_path), emit [EvCreateFailed output_path] w).
Proof.
  intros Hc. unfold package, with_ZipFile, bind, zipfile_ZipFile.
  fold output_path. rewrite Hc. reflexivity.
Qed.

(** ** The ways a run can go *)

Section Runs.

Variable host : Host.
Variable shell : string -> FS -> Z * FS.
Variable fs0 : FS.

Let status := build_status shell fs0.
Let built := built_fs shell fs0.

(** The driver failed: lines 5 and 6 run, as far as the console lets them,
    and nothing else. *)
Lemma run_build_failed :
  status ≠ 0 ->
  run host shell fs0 =
    match console host build_failed_message with
    | None =>
        mkRun (inr (SystemExit 1))
              (mkWorld built [build_failed_message]
                       [EvSystem build_command; EvPrint build_failed_message]
                       [built; built] None)
              (if flush_fails host then 120 else 1)
    | Some f =>
        mkRun (inr (console_exn build_failed_message f))
              (mkWorld built [] [EvSystem build_command] [built] None)
              (if flush_fails host then 120 else 1)
    end.
Proof.
  subst status built. unfold build_status, built_fs, run, build_py, bind, os_system.
  simpl. destruct (shell build_command fs0) as [st f1]. simpl. intros Hst.
  destruct (Z.eqb_spec st 0) as [->|_]; [congruence|]. simpl.
  unfold print. simpl.
  destruct (console host build_failed_message) as [[|errno]|]; reflexivity.
Qed.

(** The driver succeeded and build.zip could be opened: the [with] block
    runs. *)
Lemma run_build_ok :
  status = 0 ->
  create_fault host output_path = None ->
  run host shell fs0 =
    mkRun (with_result host output_path built manifest)
          (mkWorld (<[output_path := left_behind host output_path built manifest]> built) []
                   ([EvSystem build_command; EvCreate output_path]
                      ++ write_events host output_path built manifest
                      ++ close_events host output_path built manifest)
                   ([built; <[output_path := Raw []]> built]
                      ++ write_snaps host output_path (<[output_path := Raw []]> built) manifest
                      ++ close_snaps host output_path (<[output_path := Raw []]> built) manifest)
                   None)
          (if flush_fails host then 120
           else exit_status (with_result host output_path built manifest)).
Proof.
  subst status built. unfold build_status, built_fs, run, build_py, os_system.
  unfold bind at 1 2. cbn [initial fs stdout trace history zip_var].
  destruct (shell build_command fs0) as [st f1]. cbn [fst snd]. intros -> Hc.
  cbn [Z.eqb negb]. unfold ret. rewrite (package_created _ _ Hc). reflexivity.
Qed.

(** The driver succeeded and build.zip could not be opened: line 8 raises
    and the [with] block is not entered. *)
Lemma run_create_failed (errno : Z) :
  status = 0 ->
  create_fault host output_path = Some errno ->
  run host shell fs0 =
    mkRun (inr (OSError errno output_path))
          (mkWorld built [] [EvSystem build_command; EvCreateFailed output_path]
                   [built; built] None)
          (if flush_fails host then 120 else 1).
Proof.
  subst status built. unfold build_status, built_fs, run, build_py, os_system.
  unfold bind at 1 2. cbn [initial fs stdout trace history zip_var].
  destruct (shell build_command fs0) as [st f1]. cbn [fst snd]. intros -> Hc.
  cbn [Z.eqb negb]. unfold ret. rewrite (package_refused _ _ _ Hc). reflexivity.
Qed.

End Runs.

(** ** How one [zip.write] can end *)

Section Attempts.

Variables (host : Host) (zipname : string) (files : FS).

Lemma attempt_stored (p : string) (c : content) :
  attempt_of host zipname files p = Stored c -> files !! p = Some c.
Proof. intros H. attempt_cases H; congruence. Qed.

Lemma attempt_not_found (p q : string) (opened : bool) :
  attempt_of host zipname files p = Rejected (FileNotFoundError q) opened ->
  q = p ∧ files !! p = None.
Proof. intros H. attempt_cases H. injection H as <- _. auto. Qed.

Lemma attempt_missing (p : string) :
  files !! p = None ->
  attempt_of host zipname files p = Rejected (FileNotFoundError p) false.
Proof. intros H. unfold attempt_of. rewrite H. reflexivity. Qed.

Lemma attempt_truncated (p : string) (kept : content) (e : exn) :
  attempt_of host zipname files p = Truncated kept e ->
  exists errno, e = OSError errno p.
Proof. intros H. attempt_cases H; injection H as _ <-; eauto. Qed.

Lemma attempt_wrecked (p : string) (remains : content) (e : exn) :
  attempt_of host zipname files p = Wrecked remains e ->
  exists errno, e = OSError errno zipname.
Proof. intros H. attempt_cases H; injection H as _ <-; eauto. Qed.

Lemma attempt_no_exit (p : string) (e : exn) (opened : bool) (code : Z) :
  attempt_of host zipname files p = Rejected e opened -> e ≠ SystemExit code.
Proof. intros H. attempt_cases H; injection H as <- _; discriminate. Qed.

End Attempts.

(** ** What the tallies look like *)

Section Members.

Variables (host : Host) (zipname : string) (files : FS).

Lemma stored_present (t : TargetSpec) :
  stored host zipname files t -> present files t.
Proof. intros [c Hc]. exists c. eapply attempt_stored. exact Hc. Qed.

(** A sequence that ends normally stored every artifact. *)
Lemma body_result_done (l : list TargetSpec) :
  body_result host zipname files l = inl tt <-> Forall (stored host zipname files) l.
Proof.
  induction l as [|t l IH]; simpl.
  - split; [constructor | reflexivity].
  - destruct (attempt_of host zipname files (artifact_path t)) as [c|e o|k e|r e] eqn:E.
    + rewrite IH. split.
      * intros H. constructor; [exists c; exact E | exact H].
      * intros H. inversion H; assumption.
    + split; [discriminate|]. intros H. inversion H as [|? ? [x Hx] ?]. congruence.
    + split; [discriminate|]. intros H. inversion H as [|? ? [x Hx] ?]. congruence.
    + split; [discriminate|]. intros H. inversion H as [|? ? [x Hx] ?]. congruence.
Qed.

(** A sequence that ends in [FileNotFoundError] stored every artifact up to
    a missing one and stopped there. *)
Lemma body_result_not_found (l : list TargetSpec) (p : string) :
  body_result host zipname files l = inr (FileNotFoundError p) ->
  exists (t : TargetSpec) (before after : list TargetSpec),
    l = (before ++ t :: after)%list
    ∧ artifact_path t = p
    ∧ Forall (stored host zipname files) before
    ∧ files !! p = None.
Proof.
  induction l as [|u l IH]; simpl; [discriminate|].
  destruct (attempt_of host zipname files (artifact_path u)) as [c|e o|k e|r e] eqn:E.
  - intros H. destruct (IH H) as (t & before & after & -> & Hp & Hs & Hn).
    exists t, (u :: before), after. repeat split; try assumption.
    constructor; [exists c; exact E | exact Hs].
  - intros H. injection H as ->.
    destruct (attempt_not_found _ _ _ _ _ _ E) as [-> Hn].
    exists u, [], l. repeat split; [constructor | exact Hn].
  - intros H. injection H as ->.
    destruct (attempt_truncated _ _ _ _ _ _ E) as [errno He]. discriminate.
  - intros H. injection H as ->.
    destruct (attempt_wrecked _ _ _ _ _ _ E) as [errno He]. discriminate.
Qed.

(** A failed write into the archive ends the sequence in an [OSError]. *)
Lemma wreck_result (l : list TargetSpec) (remains : content) :
  wreck host zipname files l = Some remains ->
  exists errno, body_result host zipname files l = inr (OSError errno zipname).
Proof.
  induction l as [|u l IH]; simpl; [discriminate|].
  destruct (attempt_of host zipname files (artifact_path u)) as [c|e o|k e|r e] eqn:E;
    try discriminate.
  - exact IH.
  - intros _. destruct (attempt_wrecked _ _ _ _ _ _ E) as [errno ->]. eauto.
Qed.

Lemma body_result_no_exit (l : list TargetSpec) (code : Z) :
  body_result host zipname files l ≠ inr (SystemExit code).
Proof.
  induction l as [|u l IH]; simpl; [discriminate|].
  destruct (attempt_of host zipname files (artifact_path u)) as [c|e o|k e|r e] eqn:E.
  - exact IH.
  - intros H. injection H as H. exact (attempt_no_exit _ _ _ _ _ _ _ E H).
  - destruct (attempt_truncated _ _ _ _ _ _ E) as [errno ->]. discriminate.
  - destruct (attempt_wrecked _ _ _ _ _ _ E) as [errno ->]. discriminate.
Qed.

(** The tallies of a sequence all of whose artifacts are stored. *)
Lemma packed_full (l : list TargetSpec) :
  Forall (stored host zipname files) l ->
  Forall2 (member_of files) l (packed host zipname files l).
Proof.
  induction 1 as [|t l [c Hc] _ IH]; simpl; [constructor|].
  rewrite Hc. constructor; [|exact IH].
  split; [reflexivity | eapply attempt_stored; exact Hc].
Qed.

Lemma packed_names_full (l : list TargetSpec) :
  Forall (stored host zipname files) l ->
  (packed host zipname files l).*1 = map entry_path l.
Proof.
  induction 1 as [|t l [c Hc] _ IH]; simpl; [reflexivity|].
  rewrite Hc. simpl. f_equal. exact IH.
Qed.

Lemma wreck_full (l : list TargetSpec) :
  Forall (stored host zipname files) l -> wreck host zipname files l = None.
Proof.
  induction 1 as [|t l [c Hc] _ IH]; simpl; [reflexivity|].
  rewrite Hc. exact IH.
Qed.

Lemma write_events_stats (l : list TargetSpec) :
  Forall (stored host zipname files) l ->
  omap stat_path (write_events host zipname files l) = map artifact_path l.
Proof.
  induction 1 as [|u l [c Hc] _ IH]; simpl; [reflexivity|].
  rewrite Hc. simpl. f_equal. exact IH.
Qed.

Lemma write_events_reads (l : list TargetSpec) :
  Forall (stored host zipname files) l ->
  omap read_path (write_events host zipname files l) = map artifact_path l.
Proof.
  induction 1 as [|u l [c Hc] _ IH]; simpl; [reflexivity|].
  rewrite Hc. simpl. f_equal. exact IH.
Qed.

Lemma write_events_members (l : list TargetSpec) :
  Forall (stored host zipname files) l ->
  omap member_name (write_events host zipname files l) = map entry_path l.
Proof.
  induction 1 as [|u l [c Hc] _ IH]; simpl; [reflexivity|].
  rewrite Hc. simpl. f_equal. exact IH.
Qed.

(** The tallies of a sequence that stops at a missing artifact. *)
Section Split.

Variables (t : TargetSpec) (after : list TargetSpec).
Hypothesis Hmissing : files !! artifact_path t = None.

Lemma packed_split (before : list TargetSpec) :
  Forall (stored host zipname files) before ->
  packed host zipname files (before ++ t :: after) = packed host zipname files before.
Proof.
  induction 1 as [|u l [c Hc] _ IH]; simpl.
  - rewrite (attempt_missing _ _ _ _ Hmissing). reflexivity.
  - rewrite Hc, IH. reflexivity.
Qed.

Lemma wreck_split (before : list TargetSpec) :
  Forall (stored host zipname files) before ->
  wreck host zipname files (before ++ t :: after) = None.
Proof.
  induction 1 as [|u l [c Hc] _ IH]; simpl.
  - rewrite (attempt_missing _ _ _ _ Hmissing). reflexivity.
  - rewrite Hc. exact IH.
Qed.

Lemma write_events_split (before : list TargetSpec) :
  Forall (stored host zipname files) before ->
  write_events host zipname files (before ++ t :: after)
  = (write_events host zipname files before ++ [EvStat (artifact_path t)])%list.
Proof.
  induction 1 as [|u l [c Hc] _ IH]; simpl.
  - rewrite (attempt_missing _ _ _ _ Hmissing). reflexivity.
  - rewrite Hc, IH. reflexivity.
Qed.

End Split.

(** In every case the member names follow the order of the targets. *)
Lemma packed_names_prefix (l : list TargetSpec) :
  (packed host zipname files l).*1 `prefix_of` map entry_path l.
Proof.
  induction l as [|t l IH]; simpl; [reflexivity|].
  destruct (attempt_of host zipname files (artifact_path t)); simpl.
  - apply prefix_cons. exact IH.
  - apply prefix_nil.
  - apply prefix_cons. apply prefix_nil.
  - apply prefix_nil.
Qed.

(** Unless the sequence ends in an [OSError] other than
    [FileNotFoundError], every member it recorded is the packaged form of
    one of its targets. *)
Lemma packed_sound (l : list TargetSpec) :
  (forall errno f, body_result host zipname files l ≠ inr (OSError errno f)) ->
  Forall (fun m => exists t, t ∈ l ∧ member_of files t m) (packed host zipname files l).
Proof.
  induction l as [|u l IH]; simpl; [constructor|].
  destruct (attempt_of host zipname files (artifact_path u)) as [c|e o|k e|r e] eqn:E;
    intros Hne.
  - constructor.
    + exists u. split; [left|]. split; [reflexivity | eapply attempt_stored; exact E].
    + eapply Forall_impl; [exact (IH Hne)|]. intros m (t & Ht & Hm).
      exists t. split; [right; exact Ht | exact Hm].
  - constructor.
  - destruct (attempt_truncated _ _ _ _ _ _ E) as [errno ->].
    exfalso. exact (Hne _ _ eq_refl).
  - constructor.
Qed.

(** Where the actions of a sequence come from. *)
Lemma write_events_origin (l : list TargetSpec) (e : event) :
  e ∈ write_events host zipname files l ->
  e = EvWriteFailed zipname
  ∨ exists t, t ∈ l
      ∧ (e = EvStat (artifact_path t) ∨ e = EvRead (artifact_path t)
         ∨ e = EvMember zipname (entry_path t)).
Proof.
  induction l as [|t l IH]; simpl; [intros H; inversion H|].
  destruct (attempt_of host zipname files (artifact_path t)) as [c|x o|k x|r x].
  - rewrite !elem_of_cons. intros [->|[->|[->|H]]].
    + right. exists t. split; [left|]; auto.
    + right. exists t. split; [left|]; auto.
    + right. exists t. split; [left|]; auto.
    + destruct (IH H) as [->|(u & Hu & Hcase)]; [left; reflexivity|].
      right. exists u. split; [right|]; auto.
  - destruct o; rewrite ?elem_of_cons, ?elem_of_nil.
    + intros [->|[->|[]]]; right; exists t; (split; [left|]); auto.
    + intros [->|[]]; right; exists t; (split; [left|]); auto.
  - rewrite !elem_of_cons, elem_of_nil.
    intros [->|[->|[->|[]]]]; right; exists t; (split; [left|]); auto.
  - rewrite !elem_of_cons, elem_of_nil.
    intros [->|[->|[->|[]]]]; [right; exists t; (split; [left|]); auto ..|].
    left. reflexivity.
Qed.

End Members.

(** The tallies depend on the artifact files only. *)
Section Ext.

Variables (host : Host) (zipname : string) (f1 f2 : FS).

Lemma attempt_of_ext (p : string) :
  f1 !! p = f2 !! p ->
  attempt_of host zipname f1 p = attempt_of host zipname f2 p.
Proof. intros H. unfold attempt_of. rewrite H. reflexivity. Qed.

Lemma packed_ext (l : list TargetSpec) :
  Forall (fun t => f1 !! artifact_path t = f2 !! artifact_path t) l ->
  packed host zipname f1 l = packed host zipname f2 l.
Proof.
  induction 1 as [|t l Ht _ IH]; simpl; [reflexivity|].
  rewrite (attempt_of_ext _ Ht), IH. reflexivity.
Qed.

Lemma body_result_ext (l : list TargetSpec) :
  Forall (fun t => f1 !! artifact_path t = f2 !! artifact_path t) l ->
  body_result host zipname f1 l = body_result host zipname f2 l.
Proof.
  induction 1 as [|t l Ht _ IH]; simpl; [reflexivity|].
  rewrite (attempt_of_ext _ Ht), IH. reflexivity.
Qed.

Lemma wreck_ext (l : list TargetSpec) :
  Forall (fun t => f1 !! artifact_path t = f2 !! artifact_path t) l ->
  wreck host zipname f1 l = wreck host zipname f2 l.
Proof.
  induction 1 as [|t l Ht _ IH]; simpl; [reflexivity|].
  rewrite (attempt_of_ext _ Ht), IH. reflexivity.
Qed.

Lemma write_events_ext (l : list TargetSpec) :
  Forall (fun t => f1 !! artifact_path t = f2 !! artifact_path t) l ->
  write_events host zipname f1 l = write_events host zipname f2 l.
Proof.
  induction 1 as [|t l Ht _ IH]; simpl; [reflexivity|].
  rewrite (attempt_of_ext _ Ht), IH. reflexivity.
Qed.

End Ext.

(** ** Facts about the hard-coded manifest *)

(** Every artifact lies at [./target/<triple>/release/<archive_name>]. *)
Lemma manifest_layout :
  Forall (fun t => artifact_path t = "./target/" ++ triple t ++ "/release/" ++ archive_name t)
         manifest.
Proof. repeat constructor. Qed.

Lemma manifest_entries_distinct : NoDup (map entry_path manifest).
Proof. apply (bool_decide_unpack _). vm_compute. exact I. Qed.

Lemma manifest_triples_distinct : NoDup (map triple manifest).
Proof. apply (bool_decide_unpack _). vm_compute. exact I. Qed.

Lemma manifest_paths_distinct : NoDup (map artifact_path manifest).
Proof. apply (bool_decide_unpack _). vm_compute. exact I. Qed.

(** A list without repeated keys splits at a key in one way only. *)
Lemma split_unique {A B : Type} (f : A -> B) (l : list A) :
  NoDup (map f l) ->
  forall (b1 b2 a1 a2 : list A) (t1 t2 : A),
    l = (b1 ++ t1 :: a1)%list -> l = (b2 ++ t2 :: a2)%list -> f t1 = f t2 ->
    b1 = b2 ∧ t1 = t2 ∧ a1 = a2.
Proof.
  intros Hnd b1. revert l Hnd.
  induction b1 as [|x b1 IH]; intros l Hnd b2 a1 a2 t1 t2 H1 H2 Hf.
  - destruct b2 as [|y b2]; simpl in *.
    + rewrite H1 in H2. injection H2 as E1 E2. auto.
    + rewrite H1 in H2. injection H2 as E1 E2. subst l y a1. simpl in Hnd.
      apply NoDup_cons in Hnd as [Hfresh _]. exfalso. apply Hfresh.
      rewrite Hf. apply list_elem_of_fmap. exists t2. split; [reflexivity|].
      apply elem_of_app. right. left.
  - destruct b2 as [|y b2]; simpl in *.
    + rewrite H2 in H1. injection H1 as E1 E2. subst l x a2. simpl in Hnd.
      apply NoDup_cons in Hnd as [Hfresh _]. exfalso. apply Hfresh.
      rewrite <- Hf. apply list_elem_of_fmap. exists t1. split; [reflexivity|].
      apply elem_of_app. right. left.
    + rewrite H1 in H2. injection H2 as E1 E2. subst l y. simpl in Hnd.
      apply NoDup_cons in Hnd as [_ Hnd].
      destruct (IH _ Hnd b2 a1 a2 t1 t2 eq_refl E2 Hf) as (-> & -> & ->). auto.
Qed.

(** ** Classifying the actions of a run *)

Section Classes.

Variables (host : Host) (files : FS).

Lemma write_events_access :
  Forall script_access (write_events host output_path files manifest).
Proof.
  apply Forall_forall. intros e He.
  destruct (write_events_origin _ _ _ _ _ He) as [->|(t & Ht & [-> | [-> | -> ] ])];
    unfold script_access; try reflexivity;
    apply list_elem_of_fmap; exists t; auto.
Qed.

Lemma close_events_access :
  Forall script_access (close_events host output_path files manifest).
Proof.
  unfold close_events.
  destruct (wreck _ _ _ _); [constructor|].
  destruct (end_record_fault host); repeat constructor.
Qed.

Lemma write_events_created (zipname : string) (l : list TargetSpec) :
  omap created (write_events host zipname files l) = [].
Proof.
  induction l as [|t l IH]; simpl; [reflexivity|].
  destruct (attempt_of host zipname files (artifact_path t)) as [c|e o|k e|r e];
    simpl; [exact IH | destruct o; reflexivity | reflexivity | reflexivity].
Qed.

Lemma close_events_created (zipname : string) (l : list TargetSpec) :
  omap created (close_events host zipname files l) = [].
Proof.
  unfold close_events.
  destruct (wreck _ _ _ _); [reflexivity|].
  destruct (end_record_fault host); reflexivity.
Qed.

Lemma write_events_no_system (zipname : string) (l : list TargetSpec) :
  omap system_command (write_events host zipname files l) = [].
Proof.
  induction l as [|t l IH]; simpl; [reflexivity|].
  destruct (attempt_of host zipname files (artifact_path t)) as [c|e o|k e|r e];
    simpl; [exact IH | destruct o; reflexivity | reflexivity | reflexivity].
Qed.

Lemma close_events_no_system (zipname : string) (l : list TargetSpec) :
  omap system_command (close_events host zipname files l) = [].
Proof.
  unfold close_events.
  destruct (wreck _ _ _ _); [reflexivity|].
  destruct (end_record_fault host); reflexivity.
Qed.

Lemma write_events_io (zipname : string) (l : list TargetSpec) :
  Forall (fun e => file_access e = true ∧ is_rename e = false)
         (write_events host zipname files l).
Proof.
  apply Forall_forall. intros e He.
  destruct (write_events_origin _ _ _ _ _ He) as [->|(t & _ & [-> | [-> | -> ] ])];
    split; reflexivity.
Qed.

Lemma close_events_io (zipname : string) (l : list TargetSpec) :
  Forall (fun e => file_access e = true ∧ is_rename e = false)
         (close_events host zipname files l).
Proof.
  unfold close_events.
  destruct (wreck _ _ _ _); [constructor|].
  destruct (end_record_fault host); repeat constructor.
Qed.

Lemma write_events_no_end (zipname : string) (l : list TargetSpec) (p : string) :
  EvEndRecord p ∉ write_events host zipname files l.
Proof.
  intros He.
  destruct (write_events_origin _ _ _ _ _ He) as [H|(t & _ & [H | [H | H ] ])];
    discriminate.
Qed.

End Classes.

(** ** Stages of a run that reaches the [with] statement *)

Lemma squash_repeat (a b : stage) (xs ys : list stage) :
  Forall (fun x => x = a) xs ->
  squash (a :: xs ++ b :: ys) = squash (a :: b :: ys).
Proof.
  induction 1 as [|x xs -> _ IH]; [reflexivity|].
  change (squash (a :: (a :: xs) ++ b :: ys))
    with (if decide (a = a) then squash (a :: xs ++ b :: ys)
          else a :: squash (a :: xs ++ b :: ys)).
  rewrite decide_True by reflexivity. exact IH.
Qed.

Lemma walk_packaging (tr : list event) :
  Forall (fun e => file_access e = true) tr ->
  Forall (fun s => s = PACKAGING) (walk PACKAGING tr).
Proof.
  induction 1 as [|e tr He _ IH]; simpl; [constructor|].
  assert (Hn : next_stage PACKAGING e = PACKAGING)
    by (destruct e; try discriminate He; reflexivity).
  rewrite Hn. constructor; [reflexivity | exact IH].
Qed.

Lemma last_repeat (a : stage) (xs : list stage) :
  Forall (fun x => x = a) xs -> last (a :: xs) = Some a.
Proof.
  induction 1 as [|x xs -> _ IH]; [reflexivity|].
  rewrite last_cons_cons. exact IH.
Qed.

Lemma stages_of_packaging (cmd p : string) (tr : list event) (r : unit + exn) :
  Forall (fun e => file_access e = true) tr ->
  stages_of (EvSystem cmd :: EvCreate p :: tr) r
  = [START; BUILDING; PACKAGING;
     match r with inl _ => DONE | inr _ => PACKAGE_FAILED end].
Proof.
  intros Htr. pose proof (walk_packaging tr Htr) as Hw.
  unfold stages_of. cbn [walk next_stage].
  assert (Hend : end_stage (START :: BUILDING :: PACKAGING :: walk PACKAGING tr) r
                 = match r with inl _ => DONE | inr _ => PACKAGE_FAILED end).
  { unfold end_stage. destruct r; [reflexivity|].
    rewrite !last_cons_cons, (last_repeat _ _ Hw). reflexivity. }
  rewrite Hend.
  change (squash ((START :: BUILDING :: PACKAGING :: walk PACKAGING tr) ++ [?s]))
    with (START :: BUILDING :: squash (PACKAGING :: walk PACKAGING tr ++ [s])).
  rewrite (squash_repeat PACKAGING _ _ [] Hw). simpl.
  rewrite decide_False by (destruct r; discriminate). reflexivity.
Qed.

(** ** Reading members back *)

Lemma extract_absent (members : list (string * content)) (name : string) :
  name ∉ members.*1 -> extract members name = None.
Proof.
  induction members as [|[n c] rest IH]; simpl; [reflexivity|].
  rewrite not_elem_of_cons. intros [Hn Hrest].
  rewrite (IH Hrest). rewrite decide_False by congruence. reflexivity.
Qed.

Lemma extract_packed (host : Host) (zipname : string) (files : FS) (l : list TargetSpec) :
  NoDup (map entry_path l) ->
  Forall (stored host zipname files) l ->
  Forall (fun t => extract (packed host zipname files l) (entry_path t)
                   = files !! artifact_path t) l.
Proof.
  intros Hnd Hall. induction Hall as [|t l [c Hc] Hall IH]; [constructor|].
  simpl in Hnd. apply NoDup_cons in Hnd as [Hfresh Hnd].
  simpl. rewrite Hc. constructor.
  - simpl. rewrite extract_absent.
    + rewrite decide_True by reflexivity. symmetry. eapply attempt_stored. exact Hc.
    + rewrite (packed_names_full _ _ _ l Hall). exact Hfresh.
  - specialize (IH Hnd). rewrite Forall_forall in IH, Hall.
    apply Forall_forall. intros u Hu. simpl.
    rewrite (IH u Hu). destruct (Hall u Hu) as [cu Hcu].
    rewrite (attempt_stored _ _ _ _ _ Hcu). reflexivity.
Qed.

(** ** Reading the way a run went off its outcome *)

Section Inversion.

Variables (host : Host) (zipname : string) (files : FS) (l : list TargetSpec).

Lemma with_result_done :
  with_result host zipname files l = inl tt ->
  wreck host zipname files l = None
  ∧ end_record_fault host = None
  ∧ Forall (stored host zipname files) l.
Proof.
  unfold with_result. intros H.
  destruct (wreck host zipname files l) as [remains|] eqn:Ew.
  - destruct (wreck_result _ _ _ _ _ Ew) as [errno He]. congruence.
  - destruct (end_record_fault host) as [[remains errno]|]; [discriminate|].
    apply body_result_done in H. auto.
Qed.

Lemma with_result_not_found (p : string) :
  with_result host zipname files l = inr (FileNotFoundError p) ->
  wreck host zipname files l = None
  ∧ end_record_fault host = None
  ∧ body_result host zipname files l = inr (FileNotFoundError p).
Proof.
  unfold with_result. intros H.
  destruct (wreck host zipname files l) as [remains|] eqn:Ew.
  - destruct (wreck_result _ _ _ _ _ Ew) as [errno He]. congruence.
  - destruct (end_record_fault host) as [[remains errno]|]; [discriminate|]. auto.
Qed.

Lemma with_result_no_exit (code : Z) :
  with_result host zipname files l ≠ inr (SystemExit code).
Proof.
  unfold with_result.
  destruct (wreck host zipname files l);
    destruct (end_record_fault host) as [[remains errno]|];
    try apply body_result_no_exit; discriminate.
Qed.

Lemma left_behind_closed :
  wreck host zipname files l = None ->
  end_record_fault host = None ->
  left_behind host zipname files l = Zip (packed host zipname files l)
  ∧ close_events host zipname files l = [EvEndRecord zipname].
Proof. intros Hw He. unfold left_behind, close_events. rewrite Hw, He. auto. Qed.

End Inversion.

Section RunInversion.

Variable host : Host.
Variable shell : string -> FS -> Z * FS.
Variable fs0 : FS.

Lemma console_exn_not_exit (line : string) (f : console_fault) (code : Z) :
  console_exn line f ≠ SystemExit code.
Proof. destruct f; discriminate. Qed.

Lemma console_exn_found (line : string) (f : console_fault) (p : string) :
  console_exn line f ≠ FileNotFoundError p.
Proof. destruct f; discriminate. Qed.

(** A run that ends normally stored all five artifacts. *)
Lemma run_done :
  outcome (run host shell fs0) = inl tt ->
  build_status shell fs0 = 0
  ∧ create_fault host output_path = None
  ∧ wreck host output_path (built_fs shell fs0) manifest = None
  ∧ end_record_fault host = None
  ∧ Forall (stored host output_path (built_fs shell fs0)) manifest.
Proof.
  destruct (decide (build_status shell fs0 = 0)) as [H|H].
  - destruct (create_fault host output_path) as [errno|] eqn:Hc.
    + rewrite (run_create_failed host shell fs0 errno H Hc). discriminate.
    + rewrite (run_build_ok host shell fs0 H Hc). cbn [outcome]. intros Hr.
      apply with_result_done in Hr. tauto.
  - rewrite (run_build_failed host shell fs0 H).
    destruct (console host build_failed_message); discriminate.
Qed.

(** A run that ends in [FileNotFoundError] stopped at a missing artifact. *)
Lemma run_not_found (p : string) :
  outcome (run host shell fs0) = inr (FileNotFoundError p) ->
  build_status shell fs0 = 0
  ∧ create_fault host output_path = None
  ∧ wreck host output_path (built_fs shell fs0) manifest = None
  ∧ end_record_fault host = None
  ∧ exists (t : TargetSpec) (before after : list TargetSpec),
      manifest = (before ++ t :: after)%list
      ∧ artifact_path t = p
      ∧ Forall (stored host output_path (built_fs shell fs0)) before
      ∧ built_fs shell fs0 !! p = None.
Proof.
  destruct (decide (build_status shell fs0 = 0)) as [H|H].
  - destruct (create_fault host output_path) as [errno|] eqn:Hc.
    + rewrite (run_create_failed host shell fs0 errno H Hc). discriminate.
    + rewrite (run_build_ok host shell fs0 H Hc). cbn [outcome]. intros Hr.
      apply with_result_not_found in Hr as (Hw & He & Hb).
      apply body_result_not_found in Hb. tauto.
  - rewrite (run_build_failed host shell fs0 H).
    destruct (console host build_failed_message) as [f|]; cbn [outcome];
      [|discriminate].
    intros Hr. injection Hr as Hr. exfalso. exact (console_exn_found _ _ _ Hr).
Qed.

(** A run that stopped at the missing artifact of [t], seen from a given
    split of the manifest at [t]. *)
Lemma run_stopped_at (t : TargetSpec) (before after : list TargetSpec) :
  outcome (run host shell fs0) = inr (FileNotFoundError (artifact_path t)) ->
  manifest = (before ++ t :: after)%list ->
  build_status shell fs0 = 0
  ∧ create_fault host output_path = None
  ∧ wreck host output_path (built_fs shell fs0) manifest = None
  ∧ end_record_fault host = None
  ∧ Forall (stored host output_path (built_fs shell fs0)) before
  ∧ built_fs shell fs0 !! artifact_path t = None.
Proof.
  intros Hr Hman.
  destruct (run_not_found _ Hr) as (H & Hc & Hw & He & u & b & a & Hman' & Hp & Hs & Hn).
  destruct (split_unique artifact_path manifest manifest_paths_distinct
              b before a after u t Hman' Hman Hp) as (-> & -> & ->).
  auto 10.
Qed.

(** The exit status is 0 only for a run that ends normally. *)
Lemma exit_zero :
  exit_code (run host shell fs0) = 0 ->
  outcome (run host shell fs0) = inl tt ∧ flush_fails host = false.
Proof.
  destruct (decide (build_status shell fs0 = 0)) as [H|H].
  - destruct (create_fault host output_path) as [errno|] eqn:Hc.
    + rewrite (run_create_failed host shell fs0 errno H Hc). cbn [exit_code].
      destruct (flush_fails host); discriminate.
    + rewrite (run_build_ok host shell fs0 H Hc). cbn [exit_code outcome].
      destruct (flush_fails host); [discriminate|].
      pose proof (with_result_no_exit host output_path (built_fs shell fs0) manifest) as Hne.
      destruct (with_result host output_path (built_fs shell fs0) manifest)
        as [[]|[code| | | | |]]; simpl; try discriminate; auto.
      intros ->. exfalso. exact (Hne 0 eq_refl).
  - rewrite (run_build_failed host shell fs0 H).
    destruct (console host build_failed_message); cbn [exit_code];
      destruct (flush_fails host); discriminate.
Qed.

End RunInversion.

(** * The behaviour of the script *)

Section Behaviour.

Variable host : Host.
Variable shell : string -> FS -> Z * FS.
Variable fs0 : FS.

(** C2. When the build driver returns a non-zero status the script does not
    go on to packaging: the process ends with a non-zero status (1, or 120
    when the interpreter cannot flush its streams), the script performs no
    file-system action of its own (so it reads no artifact and creates no
    archive), and the file system is left exactly as the driver left it.
    If the console takes the message of line 5, the message is all that is
    printed and the script ends in [exit(1)]; if not, nothing is printed and
    the script ends in the exception of [print]. *)
Theorem build_failure_stops_before_packaging :
  build_status shell fs0 ≠ 0 ->
  exit_code (run host shell fs0) ≠ 0
  ∧ exit_code (run host shell fs0) = (if flush_fails host then 120 else 1)
  ∧ Forall (fun e => file_access e = false) (trace (final (run host shell fs0)))
  ∧ fs (final (run host shell fs0)) = built_fs shell fs0
  ∧ match console host build_failed_message with
    | None =>
        outcome (run host shell fs0) = inr (SystemExit 1)
        ∧ stdout (final (run host shell fs0)) = [build_failed_message]
    | Some f =>
        outcome (run host shell fs0) = inr (console_exn build_failed_message f)
        ∧ stdout (final (run host shell fs0)) = []
    end.
Proof.
  intros H. rewrite (run_build_failed host shell fs0 H).
  destruct (console host build_failed_message); cbn [exit_code final trace fs outcome stdout];
    (split; [destruct (flush_fails host); discriminate|]);
    repeat split; repeat constructor.
Qed.

(** C10. The script reads nothing but the five artifact files and writes
    nothing but build.zip, in place and without renaming: every path other
    than build.zip, the artifacts included, holds after the run what the
    driver left there. *)
Theorem script_touches_only_build_zip (p : string) :
  p ≠ output_path ->
  fs (final (run host shell fs0)) !! p = built_fs shell fs0 !! p
  ∧ Forall script_access (trace (final (run host shell fs0)))
  ∧ Forall (fun t => fs (final (run host shell fs0)) !! artifact_path t
                     = built_fs shell fs0 !! artifact_path t) manifest.
Proof.
  intros Hp.
  destruct (decide (build_status shell fs0 = 0)) as [H|H].
  - destruct (create_fault host output_path) as [errno|] eqn:Hc.
    + rewrite (run_create_failed host shell fs0 errno H Hc). cbn [final fs trace].
      split; [reflexivity|]. split; [repeat constructor|].
      apply Forall_forall. reflexivity.
    + rewrite (run_build_ok host shell fs0 H Hc). cbn [final fs trace].
      split; [|split].
      * apply lookup_insert_ne. congruence.
      * repeat (apply Forall_cons; split; [exact I || reflexivity|]).
        apply Forall_app. split; [apply write_events_access | apply close_events_access].
      * eapply Forall_impl; [apply manifest_not_output|].
        intros t Ht. apply lookup_insert_ne. congruence.
  - rewrite (run_build_failed host shell fs0 H).
    destruct (console host build_failed_message); cbn [final fs trace];
      (split; [reflexivity|]); (split; [repeat constructor|]);
      apply Forall_forall; reflexivity.
Qed.

(** C4, as the script has it.  When the build succeeds, every declared
    artifact is there and the packaging raises no exception, build.zip
    holds exactly one member per target of the manifest, in manifest order,
    each named [<triple>/<archive_name>] and holding what the artifact file
    holds; the member names are pairwise distinct, and reading a member back
    by its name gives the artifact file's contents.  The process ends with
    status 0, or 120 when the interpreter cannot flush its streams. *)
Theorem complete_build_is_packaged_faithfully :
  build_status shell fs0 = 0 ->
  all_present (built_fs shell fs0) ->
  outcome (run host shell fs0) = inl tt ->
  exit_code (run host shell fs0) = (if flush_fails host then 120 else 0)
  ∧ exists members,
      fs (final (run host shell fs0)) !! output_path = Some (Zip members)
      ∧ Forall2 (member_of (built_fs shell fs0)) manifest members
      ∧ NoDup members.*1
      ∧ Forall (fun t => extract members (entry_path t)
                         = built_fs shell fs0 !! artifact_path t) manifest.
Proof.
  intros H _ Hr. pose proof Hr as Hr'.
  apply run_done in Hr' as (_ & Hc & Hw & He & Hall).
  rewrite (run_build_ok host shell fs0 H Hc) in Hr |- *.
  cbn [final fs exit_code outcome] in Hr |- *. rewrite Hr.
  split; [reflexivity|].
  destruct (left_behind_closed _ _ _ _ Hw He) as [-> _].
  exists (packed host output_path (built_fs shell fs0) manifest).
  split; [apply lookup_insert_eq|].
  split; [apply packed_full; exact Hall|].
  split.
  - rewrite (packed_names_full _ _ _ _ Hall). apply manifest_entries_distinct.
  - apply extract_packed; [apply manifest_entries_distinct | exact Hall].
Qed.

(** C6. A run that succeeds leaves exactly five members in the one archive
    it creates, build.zip in the working directory: sasa.dll for Windows
    x86_64 and i686, libsasa.so for Android aarch64 and armv7, libsasa.a for
    iOS aarch64, each taken from its artifact file.  Every member name is
    [<triple>/<filename>] with a forward slash, and neither part contains a
    separator of its own. *)
Theorem successful_run_packages_five :
  exit_code (run host shell fs0) = 0 ->
  (exists c1 c2 c3 c4 c5,
      fs (final (run host shell fs0)) !! "build.zip"
      = Some (Zip [ ("x86_64-pc-windows-gnu/sasa.dll", c1);
                    ("i686-pc-windows-gnu/sasa.dll", c2);
                    ("aarch64-linux-android/libsasa.so", c3);
                    ("armv7-linux-androideabi/libsasa.so", c4);
                    ("aarch64-apple-ios/libsasa.a", c5) ])
      ∧ built_fs shell fs0 !! "./target/x86_64-pc-windows-gnu/release/sasa.dll" = Some c1
      ∧ built_fs shell fs0 !! "./target/i686-pc-windows-gnu/release/sasa.dll" = Some c2
      ∧ built_fs shell fs0 !! "./target/aarch64-linux-android/release/libsasa.so" = Some c3
      ∧ built_fs shell fs0 !! "./target/armv7-linux-androideabi/release/libsasa.so" = Some c4
      ∧ built_fs shell fs0 !! "./target/aarch64-apple-ios/release/libsasa.a" = Some c5)
  ∧ omap created (trace (final (run host shell fs0))) = ["build.zip"]
  ∧ no_separator "build.zip" = true
  ∧ Forall (fun t => entry_path t = triple t ++ "/" ++ archive_name t
                     ∧ no_separator (triple t) = true
                     ∧ no_separator (archive_name t) = true) manifest.
Proof.
  intros Hok. apply exit_zero in Hok as [Hr _].
  apply run_done in Hr as (H & Hc & Hw & He & Hall).
  rewrite (run_build_ok host shell fs0 H Hc). cbn [final fs trace].
  destruct (left_behind_closed _ _ _ _ Hw He) as [-> ->].
  split; [|split; [|split]].
  - unfold manifest in Hall.
    repeat (apply Forall_cons in Hall as [[? ?] Hall]).
    unfold artifact_path in *.
    do 5 eexists. split; [|repeat split; eapply attempt_stored; eassumption].
    rewrite lookup_insert_eq. unfold manifest, packed, artifact_path.
    repeat match goal with E : attempt_of _ _ _ _ = Stored _ |- _ => rewrite E; clear E end.
    reflexivity.
  - rewrite !omap_app, write_events_created. reflexivity.
  - reflexivity.
  - repeat constructor.
Qed.

End Behaviour.

Section Ext2.

Variables (host : Host) (zipname : string) (f1 f2 : FS) (l : list TargetSpec).
Hypothesis Hsame : Forall (fun t => f1 !! artifact_path t = f2 !! artifact_path t) l.

Lemma with_result_ext : with_result host zipname f1 l = with_result host zipname f2 l.
Proof.
  unfold with_result. rewrite (wreck_ext _ _ _ _ _ Hsame), (body_result_ext _ _ _ _ _ Hsame).
  reflexivity.
Qed.

Lemma left_behind_ext : left_behind host zipname f1 l = left_behind host zipname f2 l.
Proof.
  unfold left_behind. rewrite (wreck_ext _ _ _ _ _ Hsame), (packed_ext _ _ _ _ _ Hsame).
  reflexivity.
Qed.

End Ext2.

Lemma exit_status_raised (e : exn) :
  (forall code, e ≠ SystemExit code) -> exit_status (inr e) = 1.
Proof. intros H. destruct e; try reflexivity. exfalso. exact (H _ eq_refl). Qed.

Section Failure.

Variable host : Host.
Variable shell : string -> FS -> Z * FS.
Variable fs0 : FS.

(** C1, as the script has it.  The script checks nothing before it zips.
    When the build succeeds and build.zip can be opened, a file is left at
    build.zip also when a declared artifact is missing or of length zero.
    A missing artifact is noticed only when its [zip.write] is reached: a
    run that ends in [FileNotFoundError] ends with a non-zero status, the
    error names the path of a missing artifact, and build.zip holds one
    member for each target that precedes that artifact in the manifest.  An
    artifact of length zero is not noticed at all: a run that ends normally
    has packaged every artifact, the empty one among them. *)
Theorem bad_artifact_still_leaves_archive (t : TargetSpec) :
  build_status shell fs0 = 0 ->
  create_fault host output_path = None ->
  t ∈ manifest ->
  (built_fs shell fs0 !! artifact_path t = None
   ∨ exists c, built_fs shell fs0 !! artifact_path t = Some c ∧ zero_length c = true) ->
  is_Some (fs (final (run host shell fs0)) !! output_path)
  ∧ (forall p, outcome (run host shell fs0) = inr (FileNotFoundError p) ->
       exit_code (run host shell fs0) ≠ 0
       ∧ exists (u : TargetSpec) (before after : list TargetSpec) members,
           manifest = (before ++ u :: after)%list
           ∧ artifact_path u = p
           ∧ built_fs shell fs0 !! p = None
           ∧ fs (final (run host shell fs0)) !! output_path = Some (Zip members)
           ∧ Forall2 (member_of (built_fs shell fs0)) before members)
  ∧ (outcome (run host shell fs0) = inl tt ->
       all_present (built_fs shell fs0)
       ∧ exists members,
           fs (final (run host shell fs0)) !! output_path = Some (Zip members)
           ∧ Forall2 (member_of (built_fs shell fs0)) manifest members
           ∧ exists c, (entry_path t, c) ∈ members ∧ zero_length c = true).
Proof.
  intros H Hc Ht Hbad. split; [|split].
  - rewrite (run_build_ok host shell fs0 H Hc). cbn [final fs].
    rewrite lookup_insert_eq. eauto.
  - intros p Hr.
    destruct (run_not_found _ _ _ _ Hr) as (_ & _ & Hw & He & u & b & a & Hman & Hp & Hs & Hn).
    rewrite (run_build_ok host shell fs0 H Hc) in Hr |- *.
    cbn [final fs exit_code outcome] in Hr |- *. rewrite Hr. split.
    + destruct (flush_fails host); discriminate.
    + destruct (left_behind_closed _ _ _ _ Hw He) as [-> _].
      exists u, b, a, (packed host output_path (built_fs shell fs0) b).
      split; [exact Hman|]. split; [exact Hp|]. split; [exact Hn|].
      split; [|apply packed_full; exact Hs].
      rewrite lookup_insert_eq, Hman. subst p.
      rewrite (packed_split _ _ _ _ _ Hn _ Hs). reflexivity.
  - intros Hr. destruct (run_done _ _ _ Hr) as (_ & _ & Hw & He & Hall).
    assert (Hpres : all_present (built_fs shell fs0)).
    { eapply Forall_impl; [exact Hall|]. intros u. apply stored_present. }
    split; [exact Hpres|].
    rewrite (run_build_ok host shell fs0 H Hc). cbn [final fs].
    destruct (left_behind_closed _ _ _ _ Hw He) as [-> _].
    exists (packed host output_path (built_fs shell fs0) manifest).
    pose proof (packed_full _ _ _ _ Hall) as Hfull.
    split; [apply lookup_insert_eq|]. split; [exact Hfull|].
    destruct Hbad as [Hnone|(c & Hcont & Hz)].
    + unfold all_present in Hpres. rewrite Forall_forall in Hpres.
      destruct (Hpres t Ht) as [x Hx]. congruence.
    + exists c. split; [|exact Hz].
      apply list_elem_of_lookup in Ht as [i Hi].
      destruct (Forall2_lookup_l _ _ _ _ _ Hfull Hi) as ([n d] & Hm & Hn & Hd).
      simpl in Hn, Hd. subst n. assert (d = c) as -> by congruence.
      apply list_elem_of_lookup. exists i. exact Hm.
Qed.

(** C3, as the script has it.  When the build succeeded, build.zip was
    opened and anything raises while the archive is being written (an
    artifact that is missing, too old, too new or unreadable, a failed copy,
    a failed write into the archive or of its central directory), the run
    ends in the uncaught exception, but the archive was written in place:
    build.zip is the only file the script ever creates, nothing is renamed,
    and what was written before the failure stays at build.zip, with the
    members in manifest order as far as they were recorded. *)
Theorem packaging_failure_leaves_partial_archive (e : exn) :
  build_status shell fs0 = 0 ->
  create_fault host output_path = None ->
  outcome (run host shell fs0) = inr e ->
  exit_code (run host shell fs0) ≠ 0
  ∧ omap created (trace (final (run host shell fs0))) = [output_path]
  ∧ Forall (fun x => is_rename x = false) (trace (final (run host shell fs0)))
  ∧ fs (final (run host shell fs0)) !! output_path
    = Some (left_behind host output_path (built_fs shell fs0) manifest)
  ∧ (packed host output_path (built_fs shell fs0) manifest).*1
      `prefix_of` map entry_path manifest
  ∧ (wreck host output_path (built_fs shell fs0) manifest = None ->
     end_record_fault host = None ->
     left_behind host output_path (built_fs shell fs0) manifest
     = Zip (packed host output_path (built_fs shell fs0) manifest)
     ∧ ¬ Forall (stored host output_path (built_fs shell fs0)) manifest).
Proof.
  intros H Hc Hr.
  rewrite (run_build_ok host shell fs0 H Hc) in Hr |- *.
  cbn [final fs exit_code outcome trace] in Hr |- *.
  split; [|split; [|split; [|split; [|split]]]].
  - rewrite Hr. destruct (flush_fails host); [discriminate|].
    rewrite exit_status_raised; [discriminate|].
    intros code ->. exact (with_result_no_exit _ _ _ _ _ Hr).
  - rewrite !omap_app, write_events_created, close_events_created. reflexivity.
  - repeat (apply Forall_cons; split; [reflexivity|]).
    apply Forall_app. split.
    + eapply Forall_impl; [apply write_events_io|]. intros x [_ Hx]. exact Hx.
    + eapply Forall_impl; [apply close_events_io|]. intros x [_ Hx]. exact Hx.
  - apply lookup_insert_eq.
  - apply packed_names_prefix.
  - intros Hw He. split; [apply left_behind_closed; assumption|].
    intros Hall. apply body_result_done in Hall.
    unfold with_result in Hr. rewrite Hw, He, Hall in Hr. discriminate.
Qed.

(** C7, as the script has it.  A run goes through
    START, BUILDING, BUILD_FAILED when the driver fails, and otherwise
    through START, BUILDING, PACKAGING and then PACKAGE_FAILED or DONE.
    There is no validation stage: no artifact is looked at before build.zip
    has been created, so a missing artifact is found during packaging.
    Packaging is entered only after the driver has returned status 0. *)
Theorem run_stage_history :
  ((build_status shell fs0 ≠ 0
    ∧ stages (run host shell fs0) = [START; BUILDING; BUILD_FAILED])
   ∨ (build_status shell fs0 = 0
      ∧ (exists e, outcome (run host shell fs0) = inr e)
      ∧ stages (run host shell fs0) = [START; BUILDING; PACKAGING; PACKAGE_FAILED])
   ∨ (build_status shell fs0 = 0
      ∧ outcome (run host shell fs0) = inl tt
      ∧ stages (run host shell fs0) = [START; BUILDING; PACKAGING; DONE]))
  ∧ (forall (pre post : list event) (p : string),
       trace (final (run host shell fs0)) = (pre ++ EvStat p :: post)%list ->
       EvCreate output_path ∈ pre).
Proof.
  destruct (decide (build_status shell fs0 = 0)) as [H|H].
  - destruct (create_fault host output_path) as [errno|] eqn:Hc.
    + rewrite (run_create_failed host shell fs0 errno H Hc). unfold stages.
      cbn [final trace outcome]. split.
      * right. left. split; [exact H|]. split; [eauto | reflexivity].
      * intros [|a [|b [|d pre]]] post p Hp; simpl in Hp; discriminate Hp.
    + rewrite (run_build_ok host shell fs0 H Hc). unfold stages.
      cbn [final trace outcome app]. split.
      * rewrite stages_of_packaging.
        -- destruct (with_result host output_path (built_fs shell fs0) manifest)
             as [[]|e]; right; [right | left]; (split; [exact H|]); split;
             eauto.
        -- apply Forall_app. split.
           ++ eapply Forall_impl; [apply write_events_io|]. intros x [Hx _]. exact Hx.
           ++ eapply Forall_impl; [apply close_events_io|]. intros x [Hx _]. exact Hx.
      * intros [|a [|b pre]] post p Hp; simpl in Hp; try discriminate Hp.
        injection Hp as <- <- _. right. left.
  - rewrite (run_build_failed host shell fs0 H). split.
    + left. split; [exact H|].
      destruct (console host build_failed_message); reflexivity.
    + destruct (console host build_failed_message); cbn [final trace];
        intros [|a [|b [|d pre]]] post p Hp; simpl in Hp; discriminate Hp.
Qed.



End Failure.

Section Reproducible.

Variable host : Host.
Variables shellA shellB : string -> FS -> Z * FS.
Variables fsA fsB : FS.

(** C5. Two runs on one host whose builds both succeed and leave the same
    contents in the artifact files (whatever else differs between the two
    working directories), and the first of which completes its archive, end
    the same way and leave the same archive: the same members in the same
    order.  That order is the order of the manifest: the member names are
    the manifest's entry paths from the first onwards, all of them when the
    run succeeds. *)
Theorem archive_order_reproducible :
  build_status shellA fsA = 0 ->
  build_status shellB fsB = 0 ->
  Forall (fun t => built_fs shellA fsA !! artifact_path t
                   = built_fs shellB fsB !! artifact_path t) manifest ->
  last (trace (final (run host shellA fsA))) = Some (EvEndRecord output_path) ->
  outcome (run host shellA fsA) = outcome (run host shellB fsB)
  ∧ exists members,
      fs (final (run host shellA fsA)) !! output_path = Some (Zip members)
      ∧ fs (final (run host shellB fsB)) !! output_path = Some (Zip members)
      ∧ members.*1 `prefix_of` map entry_path manifest
      ∧ (exit_code (run host shellA fsA) = 0 ∧ members.*1 = map entry_path manifest
         ∨ exit_code (run host shellA fsA) = 1
         ∨ exit_code (run host shellA fsA) = 120).
Proof.
  intros HA HB Hsame.
  destruct (create_fault host output_path) as [errno|] eqn:Hc.
  { rewrite (run_create_failed host shellA fsA errno HA Hc). discriminate. }
  rewrite (run_build_ok host shellA fsA HA Hc), (run_build_ok host shellB fsB HB Hc).
  cbn [final fs outcome trace exit_code].
  rewrite <- (with_result_ext _ _ _ _ _ Hsame), <- (left_behind_ext _ _ _ _ _ Hsame).
  intros Hlast.
  assert (Hclosed : wreck host output_path (built_fs shellA fsA) manifest = None
                    ∧ end_record_fault host = None).
  { unfold close_events in Hlast.
    destruct (wreck host output_path (built_fs shellA fsA) manifest) as [remains|].
    - exfalso. rewrite app_nil_r in Hlast. apply last_Some_elem_of in Hlast.
      cbn [app] in Hlast.
      rewrite !elem_of_cons in Hlast. destruct Hlast as [Hx|[Hx|Hx]]; try discriminate.
      exact (write_events_no_end _ _ _ _ _ Hx).
    - destruct (end_record_fault host) as [[remains errno]|]; [|auto].
      exfalso. rewrite !app_assoc, last_snoc in Hlast. discriminate. }
  destruct Hclosed as [Hw He].
  destruct (left_behind_closed _ _ _ _ Hw He) as [-> _].
  split; [reflexivity|].
  exists (packed host output_path (built_fs shellA fsA) manifest).
  split; [apply lookup_insert_eq|]. split; [apply lookup_insert_eq|].
  split; [apply packed_names_prefix|].
  destruct (flush_fails host); [right; right; reflexivity|].
  pose proof (with_result_no_exit host output_path (built_fs shellA fsA) manifest) as Hx.
  destruct (with_result host output_path (built_fs shellA fsA) manifest) as [[]|e] eqn:Er.
  - left. split; [reflexivity|].
    apply with_result_done in Er as (_ & _ & Hall).
    apply packed_names_full. exact Hall.
  - right. left. apply exit_status_raised. intros code ->. exact (Hx code eq_refl).
Qed.

End Reproducible.

(** * Further properties of the script *)

Lemma attempt_stored_year (host : Host) (zipname : string) (files : FS)
    (p : string) (c : content) :
  attempt_of host zipname files p = Stored c ->
  1980 <= mtime_year (attrs_of host p) <= 2107.
Proof.
  intros H. unfold attempt_of in H.
  destruct (files !! p); [|discriminate].
  destruct (Z.ltb_spec (mtime_year (attrs_of host p)) 1980);
    destruct (Z.ltb_spec 2107 (mtime_year (attrs_of host p)));
    destruct (fault_of (attrs_of host p)); try discriminate; lia.
Qed.

Lemma omap_stat_elem (tr : list event) (p : string) :
  EvStat p ∈ tr -> p ∈ omap stat_path tr.
Proof. intros H. apply list_elem_of_omap. exists (EvStat p). auto. Qed.

Lemma omap_read_elem (tr : list event) (p : string) :
  EvRead p ∈ tr -> p ∈ omap read_path tr.
Proof. intros H. apply list_elem_of_omap. exists (EvRead p). auto. Qed.

Section Extras.

Variable host : Host.
Variable shell : string -> FS -> Z * FS.
Variable fs0 : FS.

(** X1. The exit status of the process is 0, 1 or 120.  It is 0 only if
    the build driver returned 0, the interpreter could flush its streams,
    and each of the five artifacts exists and carries a modification year
    from 1980 to 2107. *)
Theorem exit_zero_only_after_complete_build :
  (exit_code (run host shell fs0) = 0
   ∨ exit_code (run host shell fs0) = 1
   ∨ exit_code (run host shell fs0) = 120)
  ∧ (exit_code (run host shell fs0) = 0 ->
     build_status shell fs0 = 0
     ∧ flush_fails host = false
     ∧ Forall (fun t => present (built_fs shell fs0) t
                        ∧ 1980 <= mtime_year (attrs_of host (artifact_path t)) <= 2107)
              manifest).
Proof.
  split.
  - destruct (decide (build_status shell fs0 = 0)) as [H|H].
    + destruct (create_fault host output_path) as [errno|] eqn:Hc.
      * rewrite (run_create_failed host shell fs0 errno H Hc). cbn [exit_code].
        destruct (flush_fails host); auto.
      * rewrite (run_build_ok host shell fs0 H Hc). cbn [exit_code].
        destruct (flush_fails host); [auto|].
        pose proof (with_result_no_exit host output_path (built_fs shell fs0) manifest) as Hx.
        destruct (with_result host output_path (built_fs shell fs0) manifest)
          as [[]|e]; [left; reflexivity|].
        right. left. apply exit_status_raised. intros code ->. exact (Hx code eq_refl).
    + rewrite (run_build_failed host shell fs0 H).
      destruct (console host build_failed_message); cbn [exit_code];
        destruct (flush_fails host); auto.
  - intros Hz. apply exit_zero in Hz as [Hr Hf].
    apply run_done in Hr as (H & _ & _ & _ & Hall).
    split; [exact H|]. split; [exact Hf|].
    eapply Forall_impl; [exact Hall|]. intros t [c Hc].
    split; [exists c; eapply attempt_stored; exact Hc|].
    eapply attempt_stored_year. exact Hc.
Qed.

(** X2. A run that ends in the [FileNotFoundError] of the artifact of
    target [t] has stopped there: it looked at the artifacts of the targets
    before [t] and of [t] itself, in manifest order, opened the ones before
    [t] and recorded their members, and then closed the archive; the
    artifacts of the targets after [t] were neither looked at nor opened. *)
Theorem run_stops_at_first_missing (t : TargetSpec) (before after : list TargetSpec) :
  outcome (run host shell fs0) = inr (FileNotFoundError (artifact_path t)) ->
  manifest = (before ++ t :: after)%list ->
  omap stat_path (trace (final (run host shell fs0))) = map artifact_path (before ++ [t])
  ∧ omap read_path (trace (final (run host shell fs0))) = map artifact_path before
  ∧ omap member_name (trace (final (run host shell fs0))) = map entry_path before
  ∧ last (trace (final (run host shell fs0))) = Some (EvEndRecord output_path)
  ∧ Forall (fun u => (EvStat (artifact_path u) ∉ trace (final (run host shell fs0)))
                     ∧ (EvRead (artifact_path u) ∉ trace (final (run host shell fs0)))) after.
Proof.
  intros Hr Hman.
  destruct (run_stopped_at _ _ _ _ _ _ Hr Hman) as (H & Hc & Hw & He & Hbefore & Hmiss).
  pose proof manifest_paths_distinct as Hnd.
  rewrite (run_build_ok host shell fs0 H Hc). cbn [final trace].
  destruct (left_behind_closed _ _ _ _ Hw He) as [_ ->].
  rewrite Hman in Hnd |- *.
  rewrite (write_events_split _ _ _ _ _ Hmiss _ Hbefore).
  assert (Hstat : omap stat_path
            ([EvSystem build_command; EvCreate output_path]
               ++ (write_events host output_path (built_fs shell fs0) before
                     ++ [EvStat (artifact_path t)])
               ++ [EvEndRecord output_path])%list
          = map artifact_path (before ++ [t])).
  { rewrite !omap_app, write_events_stats by exact Hbefore.
    rewrite List.map_app. simpl. rewrite app_nil_r. reflexivity. }
  assert (Hread : omap read_path
            ([EvSystem build_command; EvCreate output_path]
               ++ (write_events host output_path (built_fs shell fs0) before
                     ++ [EvStat (artifact_path t)])
               ++ [EvEndRecord output_path])%list
          = map artifact_path before).
  { rewrite !omap_app, write_events_reads by exact Hbefore.
    simpl. rewrite !app_nil_r. reflexivity. }
  split; [exact Hstat|]. split; [exact Hread|]. split; [|split].
  - rewrite !omap_app, write_events_members by exact Hbefore.
    simpl. rewrite !app_nil_r. reflexivity.
  - rewrite !app_assoc. apply last_snoc.
  - rewrite List.map_app in Hnd. apply NoDup_app in Hnd as (_ & Hdisj & Hnd2).
    simpl in Hnd2. apply NoDup_cons in Hnd2 as [Hfresh _].
    apply Forall_forall. intros u Hu.
    assert (Hout : artifact_path u ∉ map artifact_path (before ++ [t])).
    { rewrite List.map_app. simpl. rewrite elem_of_app, list_elem_of_singleton.
      intros [Hin|Heq].
      - apply (Hdisj _ Hin). right. apply list_elem_of_fmap. exists u. auto.
      - apply Hfresh. rewrite <- Heq. apply list_elem_of_fmap. exists u. auto. }
    split.
    + intros Hin. apply omap_stat_elem in Hin. rewrite Hstat in Hin. auto.
    + intros Hin. apply omap_read_elem in Hin. rewrite Hread in Hin.
      apply Hout. rewrite List.map_app. apply elem_of_app. left. exact Hin.
Qed.

(** X3. What can be read back from the archive of a run that stopped at a
    missing artifact.  If the run ends in the [FileNotFoundError] of the
    artifact of target [t], build.zip has one member per target before [t]:
    reading back the entry of such a target gives its artifact's contents,
    and the entries of [t] and of every target after it are not in the
    archive. *)
Theorem partial_archive_read_back (t : TargetSpec) (before after : list TargetSpec) :
  outcome (run host shell fs0) = inr (FileNotFoundError (artifact_path t)) ->
  manifest = (before ++ t :: after)%list ->
  build_status shell fs0 = 0
  ∧ Forall (present (built_fs shell fs0)) before
  ∧ built_fs shell fs0 !! artifact_path t = None
  ∧ exists members,
      fs (final (run host shell fs0)) !! output_path = Some (Zip members)
      ∧ members.*1 = map entry_path before
      ∧ Forall (fun u => extract members (entry_path u)
                         = built_fs shell fs0 !! artifact_path u) before
      ∧ Forall (fun u => extract members (entry_path u) = None) (t :: after).
Proof.
  intros Hr Hman.
  destruct (run_stopped_at _ _ _ _ _ _ Hr Hman) as (H & Hc & Hw & He & Hbefore & Hmiss).
  split; [exact H|].
  split; [eapply Forall_impl; [exact Hbefore|]; intros u; apply stored_present|].
  split; [exact Hmiss|].
  pose proof manifest_entries_distinct as Hnd.
  rewrite (run_build_ok host shell fs0 H Hc). cbn [final fs].
  destruct (left_behind_closed _ _ _ _ Hw He) as [-> _].
  rewrite Hman in Hnd |- *.
  rewrite (packed_split _ _ _ _ _ Hmiss _ Hbefore).
  rewrite List.map_app in Hnd. apply NoDup_app in Hnd as (Hnd1 & Hdisj & _).
  exists (packed host output_path (built_fs shell fs0) before).
  split; [apply lookup_insert_eq|].
  split; [apply packed_names_full; exact Hbefore|].
  split; [apply extract_packed; assumption|].
  apply Forall_forall. intros u Hu. apply extract_absent.
  rewrite (packed_names_full _ _ _ _ Hbefore). intros Hin.
  apply (Hdisj _ Hin). apply list_elem_of_fmap. exists u. auto.
Qed.

(** X4. Whenever the build succeeded and the run does not end in an
    [OSError] other than [FileNotFoundError] (so it ends normally, or
    because an artifact is missing or carries a date the archive format
    cannot hold), every member of
    build.zip is the packaged form of a target of the manifest: it is named
    [<triple>/<archive_name>] and holds what that target's artifact file
    holds at the end of the run; and no two members have the same name. *)
Theorem archive_members_are_artifacts :
  build_status shell fs0 = 0 ->
  (forall errno f, outcome (run host shell fs0) ≠ inr (OSError errno f)) ->
  exists members,
    fs (final (run host shell fs0)) !! output_path = Some (Zip members)
    ∧ Forall (fun m => exists t, t ∈ manifest
                         ∧ member_of (fs (final (run host shell fs0))) t m) members
    ∧ NoDup members.*1.
Proof.
  intros H.
  destruct (create_fault host output_path) as [errno|] eqn:Hc.
  { rewrite (run_create_failed host shell fs0 errno H Hc). cbn [outcome].
    intros Hne. exfalso. exact (Hne _ _ eq_refl). }
  rewrite (run_build_ok host shell fs0 H Hc). cbn [final fs outcome].
  intros Hne.
  assert (Hclosed : wreck host output_path (built_fs shell fs0) manifest = None
                    ∧ end_record_fault host = None).
  { unfold with_result in Hne.
    destruct (wreck host output_path (built_fs shell fs0) manifest) as [remains|] eqn:Ew.
    - destruct (wreck_result _ _ _ _ _ Ew) as [errno He].
      exfalso. apply (Hne errno output_path).
      destruct (end_record_fault host) as [[r x]|]; exact He.
    - destruct (end_record_fault host) as [[r x]|]; [|auto].
      exfalso. exact (Hne _ _ eq_refl). }
  destruct Hclosed as [Hw He].
  assert (Hbody : forall errno f,
            body_result host output_path (built_fs shell fs0) manifest
            ≠ inr (OSError errno f)).
  { intros errno f. specialize (Hne errno f). unfold with_result in Hne.
    rewrite Hw, He in Hne. exact Hne. }
  destruct (left_behind_closed _ _ _ _ Hw He) as [-> _].
  exists (packed host output_path (built_fs shell fs0) manifest).
  split; [apply lookup_insert_eq|]. split.
  - eapply Forall_impl; [apply packed_sound; exact Hbody|].
    intros m (t & Ht & Hn & Hcont). exists t. split; [exact Ht|].
    split; [exact Hn|]. rewrite lookup_insert_ne; [exact Hcont|].
    pose proof manifest_not_output as Hno. rewrite Forall_forall in Hno.
    intros E. apply (Hno t Ht). symmetry. exact E.
  - destruct (packed_names_prefix host output_path (built_fs shell fs0) manifest) as [k Hk].
    pose proof manifest_entries_distinct as Hnd. rewrite Hk in Hnd.
    apply NoDup_app in Hnd as (Hnd & _). exact Hnd.
Qed.

(** X5. The script calls the build driver exactly once, with the command
    line of line 4, before anything else.  It prints nothing when the
    driver succeeded (not even when packaging then fails); when the driver
    failed it prints the message of line 5 once if the console takes it,
    and nothing if [print] raises. *)
Theorem driver_called_once :
  omap system_command (trace (final (run host shell fs0))) = ["powershell ./build.ps1"]
  ∧ head (trace (final (run host shell fs0))) = Some (EvSystem "powershell ./build.ps1")
  ∧ (build_status shell fs0 = 0 ∧ stdout (final (run host shell fs0)) = []
     ∨ build_status shell fs0 ≠ 0
       ∧ stdout (final (run host shell fs0))
         = match console host build_failed_message with
           | None => [build_failed_message]
           | Some _ => []
           end).
Proof.
  destruct (decide (build_status shell fs0 = 0)) as [H|H].
  - destruct (create_fault host output_path) as [errno|] eqn:Hc.
    + rewrite (run_create_failed host shell fs0 errno H Hc). cbn [final trace stdout].
      split; [reflexivity|]. split; [reflexivity | left; auto].
    + rewrite (run_build_ok host shell fs0 H Hc). cbn [final trace stdout].
      split; [|split; [reflexivity | left; auto]].
      rewrite !omap_app, write_events_no_system, close_events_no_system. reflexivity.
  - rewrite (run_build_failed host shell fs0 H).
    destruct (console host build_failed_message); cbn [final trace stdout];
      (split; [reflexivity|]); (split; [reflexivity | right; auto]).
Qed.

(** X6. A run that ends normally has looked at and opened each of the five
    artifacts exactly once, in manifest order, recorded their members in
    that order, and written the central directory of build.zip last. *)
Theorem complete_run_reads_each_artifact_once :
  outcome (run host shell fs0) = inl tt ->
  omap stat_path (trace (final (run host shell fs0))) = map artifact_path manifest
  ∧ omap read_path (trace (final (run host shell fs0))) = map artifact_path manifest
  ∧ omap member_name (trace (final (run host shell fs0))) = map entry_path manifest
  ∧ last (trace (final (run host shell fs0))) = Some (EvEndRecord output_path).
Proof.
  intros Hr. apply run_done in Hr as (H & Hc & Hw & He & Hall).
  rewrite (run_build_ok host shell fs0 H Hc). cbn [final trace].
  destruct (left_behind_closed _ _ _ _ Hw He) as [_ ->].
  rewrite !omap_app, write_events_stats, write_events_reads, write_events_members
    by exact Hall.
  split; [|split; [|split]].
  - reflexivity.
  - reflexivity.
  - reflexivity.
  - rewrite app_assoc. apply last_snoc.
Qed.

End Extras.

Section Rerun.

Variable host : Host.
Variables shell again : string -> FS -> Z * FS.
Variable fs0 : FS.

(** X7. Running the script a second time changes nothing.  If the build
    succeeded in a first run, and in a second run on the same host, started
    in the directory the first one left, the driver succeeds without
    changing any file, then the second run ends as the first did and leaves
    the file system, the archive included, exactly as the first run left
    it. *)
Theorem rerun_is_idempotent :
  build_status shell fs0 = 0 ->
  again build_command (fs (final (run host shell fs0)))
  = (0, fs (final (run host shell fs0))) ->
  fs (final (run host again (fs (final (run host shell fs0)))))
  = fs (final (run host shell fs0))
  ∧ outcome (run host again (fs (final (run host shell fs0))))
    = outcome (run host shell fs0).
Proof.
  intros H Hagain.
  assert (H2 : build_status again (fs (final (run host shell fs0))) = 0).
  { unfold build_status. rewrite Hagain. reflexivity. }
  assert (Hb : built_fs again (fs (final (run host shell fs0)))
               = fs (final (run host shell fs0))).
  { unfold built_fs. rewrite Hagain. reflexivity. }
  destruct (create_fault host output_path) as [errno|] eqn:Hc.
  - rewrite (run_create_failed host again _ errno H2 Hc). rewrite Hb.
    rewrite (run_create_failed host shell fs0 errno H Hc). split; reflexivity.
  - rewrite (run_build_ok host again _ H2 Hc). rewrite Hb. clear H2 Hb Hagain.
    rewrite (run_build_ok host shell fs0 H Hc). cbn [final fs outcome].
    rewrite left_behind_insert, with_result_insert by apply manifest_not_output.
    rewrite insert_insert_eq. split; reflexivity.
Qed.

End Rerun.

(** * Where the script departs from the design document *)

(** C1 fails on the script.  With the iOS library missing after a
    successful build, build.zip exists after the run and holds the other
    four members; with the 32-bit Android library of length zero the run
    even succeeds and ships the empty member. *)
Lemma missing_artifact_leaves_archive :
  build_status driver_idle fs_no_ios = 0
  ∧ built_fs driver_idle fs_no_ios !! "./target/aarch64-apple-ios/release/libsasa.a" = None
  ∧ fs (final (run plain_host driver_idle fs_no_ios)) !! "build.zip"
    = Some (Zip [ ("x86_64-pc-windows-gnu/sasa.dll", dll64);
                  ("i686-pc-windows-gnu/sasa.dll", dll32);
                  ("aarch64-linux-android/libsasa.so", so64);
                  ("armv7-linux-androideabi/libsasa.so", so32) ])
  ∧ build_status driver_idle fs_empty_so = 0
  ∧ built_fs driver_idle fs_empty_so !! "./target/armv7-linux-androideabi/release/libsasa.so"
    = Some (Raw [])
  ∧ exit_code (run plain_host driver_idle fs_empty_so) = 0
  ∧ fs (final (run plain_host driver_idle fs_empty_so)) !! "build.zip"
    = Some (Zip [ ("x86_64-pc-windows-gnu/sasa.dll", dll64);
                  ("i686-pc-windows-gnu/sasa.dll", dll32);
                  ("aarch64-linux-android/libsasa.so", so64);
                  ("armv7-linux-androideabi/libsasa.so", Raw []);
                  ("aarch64-apple-ios/libsasa.a", lib_a) ]).
Proof. vm_compute. repeat split. Qed.

(** C3 fails on the script.  With only the Windows libraries built, the
    third [zip.write] fails; the script has created build.zip itself, never
    a temporary file, renames nothing, and leaves at build.zip an archive of
    two members in place of the earlier release. *)
Lemma partial_archive_at_final_path :
  outcome (run plain_host driver_idle fs_windows_only)
  = inr (FileNotFoundError "./target/aarch64-linux-android/release/libsasa.so")
  ∧ trace (final (run plain_host driver_idle fs_windows_only))
    = [ EvSystem "powershell ./build.ps1";
        EvCreate "build.zip";
        EvStat "./target/x86_64-pc-windows-gnu/release/sasa.dll";
        EvRead "./target/x86_64-pc-windows-gnu/release/sasa.dll";
        EvMember "build.zip" "x86_64-pc-windows-gnu/sasa.dll";
        EvStat "./target/i686-pc-windows-gnu/release/sasa.dll";
        EvRead "./target/i686-pc-windows-gnu/release/sasa.dll";
        EvMember "build.zip" "i686-pc-windows-gnu/sasa.dll";
        EvStat "./target/aarch64-linux-android/release/libsasa.so";
        EvEndRecord "build.zip" ]
  ∧ fs_windows_only !! "build.zip" = Some old_release
  ∧ fs (final (run plain_host driver_idle fs_windows_only)) !! "build.zip"
    = Some (Zip [ ("x86_64-pc-windows-gnu/sasa.dll", dll64);
                  ("i686-pc-windows-gnu/sasa.dll", dll32) ]).
Proof. vm_compute. repeat split. Qed.

(** C4 fails on the script.  The build succeeds and all five artifacts are
    there, but the 64-bit Android library carries a modification time of
    1979: [zip.write] refuses it, the run ends in [ValueError] with status
    1, and build.zip holds two members instead of five. *)
Lemma present_artifact_refused :
  build_status driver_builds fs_sources = 0
  ∧ built_fs driver_builds fs_sources
    !! "./target/x86_64-pc-windows-gnu/release/sasa.dll" = Some dll64
  ∧ built_fs driver_builds fs_sources
    !! "./target/i686-pc-windows-gnu/release/sasa.dll" = Some dll32
  ∧ built_fs driver_builds fs_sources
    !! "./target/aarch64-linux-android/release/libsasa.so" = Some so64
  ∧ built_fs driver_builds fs_sources
    !! "./target/armv7-linux-androideabi/release/libsasa.so" = Some so32
  ∧ built_fs driver_builds fs_sources
    !! "./target/aarch64-apple-ios/release/libsasa.a" = Some lib_a
  ∧ mtime_year (attrs_of host_stale_mtime
                  "./target/aarch64-linux-android/release/libsasa.so") = 1979
  ∧ outcome (run host_stale_mtime driver_builds fs_sources)
    = inr (ValueError "ZIP does not support timestamps before 1980")
  ∧ exit_code (run host_stale_mtime driver_builds fs_sources) = 1
  ∧ fs (final (run host_stale_mtime driver_builds fs_sources)) !! "build.zip"
    = Some (Zip [ ("x86_64-pc-windows-gnu/sasa.dll", dll64);
                  ("i686-pc-windows-gnu/sasa.dll", dll32) ]).
Proof. vm_compute. repeat split. Qed.

(** C7 fails on the script.  Neither a successful run nor one that stops on
    a missing artifact passes through VALIDATING: the run goes from BUILDING
    straight to PACKAGING, which is no transition of the designed pipeline,
    and the missing artifact is found only after build.zip was created, so
    the run ends in PACKAGE_FAILED and not in VALIDATION_FAILED.  A script
    that looked at the artifacts before opening build.zip would pass through
    VALIDATING and follow the designed pipeline. *)
Lemma run_skips_validation :
  stages (run plain_host driver_builds fs_sources) = [START; BUILDING; PACKAGING; DONE]
  ∧ design_run (stages (run plain_host driver_builds fs_sources)) = false
  ∧ stages (run plain_host driver_idle fs_sources)
    = [START; BUILDING; PACKAGING; PACKAGE_FAILED]
  ∧ design_run (stages (run plain_host driver_idle fs_sources)) = false
  ∧ trace (final (run plain_host driver_idle fs_sources))
    = [ EvSystem "powershell ./build.ps1";
        EvCreate "build.zip";
        EvStat "./target/x86_64-pc-windows-gnu/release/sasa.dll";
        EvEndRecord "build.zip" ]
  ∧ stages_of validating_trace (inl tt)
    = [START; BUILDING; VALIDATING; PACKAGING; DONE]
  ∧ design_run (stages_of validating_trace (inl tt)) = true.
Proof. vm_compute. repeat split. Qed.



(** * The theorems at sample inputs *)

Lemma build_failure_stops_before_packaging_witness :
  build_status driver_fails fs_windows_only ≠ 0
  ∧ exit_code (run host_ascii_console driver_fails fs_windows_only) ≠ 0
  ∧ exit_code (run plain_host driver_fails fs_windows_only) ≠ 0.
Proof.
  split; [vm_compute; discriminate|]. split.
  - apply (build_failure_stops_before_packaging host_ascii_console driver_fails
             fs_windows_only).
    vm_compute; discriminate.
  - apply (build_failure_stops_before_packaging plain_host driver_fails fs_windows_only).
    vm_compute; discriminate.
Defined.

Lemma script_touches_only_build_zip_witness :
  "README.md" ≠ output_path
  ∧ fs (final (run plain_host driver_builds fs_sources)) !! "README.md"
    = built_fs driver_builds fs_sources !! "README.md".
Proof.
  split; [discriminate|].
  apply (script_touches_only_build_zip plain_host driver_builds fs_sources "README.md").
  discriminate.
Defined.

Lemma fs_complete_all_present : all_present (built_fs driver_builds fs_sources).
Proof. repeat constructor; eexists; vm_compute; reflexivity. Defined.

Lemma complete_build_is_packaged_faithfully_witness :
  build_status driver_builds fs_sources = 0
  ∧ all_present (built_fs driver_builds fs_sources)
  ∧ outcome (run plain_host driver_builds fs_sources) = inl tt
  ∧ exit_code (run plain_host driver_builds fs_sources)
    = (if flush_fails plain_host then 120 else 0).
Proof.
  split; [reflexivity|]. split; [exact fs_complete_all_present|].
  split; [vm_compute; reflexivity|].
  apply (complete_build_is_packaged_faithfully plain_host driver_builds fs_sources).
  - reflexivity.
  - exact fs_complete_all_present.
  - vm_compute; reflexivity.
Defined.

Lemma successful_run_packages_five_witness :
  exit_code (run plain_host driver_builds fs_sources) = 0
  ∧ omap created (trace (final (run plain_host driver_builds fs_sources))) = ["build.zip"].
Proof.
  split; [vm_compute; reflexivity|].
  apply (successful_run_packages_five plain_host driver_builds fs_sources).
  vm_compute; reflexivity.
Defined.

Lemma bad_artifact_still_leaves_archive_witness :
  build_status driver_idle fs_empty_so = 0
  ∧ create_fault plain_host output_path = None
  ∧ mkTarget "armv7-linux-androideabi"
             "./target/armv7-linux-androideabi/release/libsasa.so" "libsasa.so" ∈ manifest
  ∧ (exists c, built_fs driver_idle fs_empty_so
               !! "./target/armv7-linux-androideabi/release/libsasa.so" = Some c
               ∧ zero_length c = true)
  ∧ is_Some (fs (final (run plain_host driver_idle fs_empty_so)) !! output_path).
Proof.
  assert (Hin : mkTarget "armv7-linux-androideabi"
                  "./target/armv7-linux-androideabi/release/libsasa.so" "libsasa.so"
                ∈ manifest).
  { do 3 right. left. }
  assert (Hz : exists c, built_fs driver_idle fs_empty_so
                         !! "./target/armv7-linux-androideabi/release/libsasa.so" = Some c
                         ∧ zero_length c = true).
  { exists (Raw []). split; vm_compute; reflexivity. }
  split; [reflexivity|]. split; [reflexivity|]. split; [exact Hin|]. split; [exact Hz|].
  apply (bad_artifact_still_leaves_archive plain_host driver_idle fs_empty_so _
           eq_refl eq_refl Hin (or_intror Hz)).
Defined.

Lemma packaging_failure_leaves_partial_archive_witness :
  build_status driver_idle fs_no_ios = 0
  ∧ create_fault plain_host output_path = None
  ∧ outcome (run plain_host driver_idle fs_no_ios)
    = inr (FileNotFoundError "./target/aarch64-apple-ios/release/libsasa.a")
  ∧ omap created (trace (final (run plain_host driver_idle fs_no_ios))) = [output_path].
Proof.
  split; [reflexivity|]. split; [reflexivity|]. split; [vm_compute; reflexivity|].
  apply (packaging_failure_leaves_partial_archive plain_host driver_idle fs_no_ios
           (FileNotFoundError "./target/aarch64-apple-ios/release/libsasa.a")).
  - reflexivity.
  - reflexivity.
  - vm_compute; reflexivity.
Defined.

Lemma run_stage_history_witness :
  trace (final (run plain_host driver_idle fs_sources))
  = ([EvSystem build_command; EvCreate output_path]
       ++ EvStat "./target/x86_64-pc-windows-gnu/release/sasa.dll"
       :: [EvEndRecord output_path])%list
  ∧ EvCreate output_path ∈ [EvSystem build_command; EvCreate output_path].
Proof.
  assert (Ht : trace (final (run plain_host driver_idle fs_sources))
               = ([EvSystem build_command; EvCreate output_path]
                    ++ EvStat "./target/x86_64-pc-windows-gnu/release/sasa.dll"
                    :: [EvEndRecord output_path])%list)
    by (vm_compute; reflexivity).
  split; [exact Ht|].
  exact (proj2 (run_stage_history plain_host driver_idle fs_sources) _ _ _ Ht).
Defined.



Lemma same_artifacts_on_two_hosts :
  Forall (fun t => built_fs driver_builds fs_sources !! artifact_path t
                   = built_fs driver_idle (fs_complete ∪ fs_windows_only) !! artifact_path t)
         manifest.
Proof. repeat constructor. Defined.

Lemma archive_order_reproducible_witness :
  build_status driver_builds fs_sources = 0
  ∧ build_status driver_idle (fs_complete ∪ fs_windows_only) = 0
  ∧ last (trace (final (run plain_host driver_builds fs_sources)))
    = Some (EvEndRecord output_path)
  ∧ outcome (run plain_host driver_builds fs_sources)
    = outcome (run plain_host driver_idle (fs_complete ∪ fs_windows_only)).
Proof.
  split; [reflexivity|]. split; [reflexivity|]. split; [vm_compute; reflexivity|].
  apply (archive_order_reproducible plain_host driver_builds driver_idle
           fs_sources (fs_complete ∪ fs_windows_only)).
  - reflexivity.
  - reflexivity.
  - exact same_artifacts_on_two_hosts.
  - vm_compute; reflexivity.
Defined.

(** ** The further properties at sample inputs *)

Lemma exit_zero_only_after_complete_build_witness :
  exit_code (run plain_host driver_builds fs_sources) = 0
  ∧ build_status driver_builds fs_sources = 0.
Proof.
  assert (Hz : exit_code (run plain_host driver_builds fs_sources) = 0)
    by (vm_compute; reflexivity).
  split; [exact Hz|].
  exact (proj1 (proj2 (exit_zero_only_after_complete_build plain_host driver_builds
                         fs_sources) Hz)).
Defined.

Lemma run_stops_at_first_missing_witness :
  outcome (run plain_host driver_idle fs_no_android64)
  = inr (FileNotFoundError "./target/aarch64-linux-android/release/libsasa.so")
  ∧ omap read_path (trace (final (run plain_host driver_idle fs_no_android64)))
    = [ "./target/x86_64-pc-windows-gnu/release/sasa.dll";
        "./target/i686-pc-windows-gnu/release/sasa.dll" ].
Proof.
  split; [vm_compute; reflexivity|].
  apply (run_stops_at_first_missing plain_host driver_idle fs_no_android64
           (mkTarget "aarch64-linux-android"
                     "./target/aarch64-linux-android/release/libsasa.so" "libsasa.so")
           [ mkTarget "x86_64-pc-windows-gnu"
                      "./target/x86_64-pc-windows-gnu/release/sasa.dll" "sasa.dll";
             mkTarget "i686-pc-windows-gnu"
                      "./target/i686-pc-windows-gnu/release/sasa.dll" "sasa.dll" ]
           [ mkTarget "armv7-linux-androideabi"
                      "./target/armv7-linux-androideabi/release/libsasa.so" "libsasa.so";
             mkTarget "aarch64-apple-ios"
                      "./target/aarch64-apple-ios/release/libsasa.a" "libsasa.a" ]).
  - vm_compute; reflexivity.
  - reflexivity.
Defined.

Lemma partial_archive_read_back_witness :
  outcome (run plain_host driver_idle fs_no_android64)
  = inr (FileNotFoundError "./target/aarch64-linux-android/release/libsasa.so")
  ∧ exists members,
      fs (final (run plain_host driver_idle fs_no_android64)) !! output_path
      = Some (Zip members)
      ∧ members.*1 = ["x86_64-pc-windows-gnu/sasa.dll"; "i686-pc-windows-gnu/sasa.dll"].
Proof.
  assert (Hr : outcome (run plain_host driver_idle fs_no_android64)
               = inr (FileNotFoundError
                        (artifact_path
                           (mkTarget "aarch64-linux-android"
                              "./target/aarch64-linux-android/release/libsasa.so"
                              "libsasa.so"))))
    by (vm_compute; reflexivity).
  split; [exact Hr|].
  destruct (partial_archive_read_back plain_host driver_idle fs_no_android64
              (mkTarget "aarch64-linux-android"
                        "./target/aarch64-linux-android/release/libsasa.so" "libsasa.so")
              [ mkTarget "x86_64-pc-windows-gnu"
                         "./target/x86_64-pc-windows-gnu/release/sasa.dll" "sasa.dll";
                mkTarget "i686-pc-windows-gnu"
                         "./target/i686-pc-windows-gnu/release/sasa.dll" "sasa.dll" ]
              [ mkTarget "armv7-linux-androideabi"
                         "./target/armv7-linux-androideabi/release/libsasa.so" "libsasa.so";
                mkTarget "aarch64-apple-ios"
                         "./target/aarch64-apple-ios/release/libsasa.a" "libsasa.a" ]
              Hr eq_refl)
    as (_ & _ & _ & members & Hm & Hn & _).
  exists members. split; [exact Hm | exact Hn].
Defined.

Lemma windows_only_ends_in_not_found :
  forall errno f,
    outcome (run plain_host driver_idle fs_windows_only) ≠ inr (OSError errno f).
Proof. intros errno f. vm_compute. discriminate. Defined.

Lemma archive_members_are_artifacts_witness :
  build_status driver_idle fs_windows_only = 0
  ∧ (forall errno f,
       outcome (run plain_host driver_idle fs_windows_only) ≠ inr (OSError errno f))
  ∧ exists members,
      fs (final (run plain_host driver_idle fs_windows_only)) !! output_path
      = Some (Zip members)
      ∧ NoDup members.*1.
Proof.
  split; [reflexivity|]. split; [exact windows_only_ends_in_not_found|].
  destruct (archive_members_are_artifacts plain_host driver_idle fs_windows_only
              eq_refl windows_only_ends_in_not_found)
    as (members & Hm & _ & Hnd).
  exists members. split; [exact Hm | exact Hnd].
Defined.

Lemma complete_run_reads_each_artifact_once_witness :
  outcome (run plain_host driver_builds fs_sources) = inl tt
  ∧ omap stat_path (trace (final (run plain_host driver_builds fs_sources)))
    = map artifact_path manifest.
Proof.
  split; [vm_compute; reflexivity|].
  apply (complete_run_reads_each_artifact_once plain_host driver_builds fs_sources).
  vm_compute; reflexivity.
Defined.

Lemma rerun_is_idempotent_witness :
  build_status driver_builds fs_sources = 0
  ∧ driver_idle build_command (fs (final (run plain_host driver_builds fs_sources)))
    = (0, fs (final (run plain_host driver_builds fs_sources)))
  ∧ fs (final (run plain_host driver_idle
                 (fs (final (run plain_host driver_builds fs_sources)))))
    = fs (final (run plain_host driver_builds fs_sources)).
Proof.
  split; [reflexivity|]. split; [reflexivity|].
  apply (rerun_is_idempotent plain_host driver_builds driver_idle fs_sources).
  - reflexivity.
  - reflexivity.
Defined.
